(** * Meeting rooms, voice-activity arbitration and the agent's conversation flow

    A shallow embedding of [backend/app/signaling.py] (classes [Participant],
    [MeetingRoom], [EnhancedSessionManager]) and of
    [backend/app/services/ai_meeting_orchestrator.py] (classes
    [ConversationFlow], [AIMeetingOrchestrator]).

    Conventions of the embedding.
    - A Python [dict] is a [gmap]; [len(d)] is [size d].
    - [datetime.now()] is an explicit argument [now]; instants and durations
      are integers counting microseconds, the resolution of [datetime].
    - A [WebSocket] is a handle; whether [send_text] on a network socket
      raises is decided by the environment, given as the predicate [alive].
    - Database writes and log lines have no influence on control flow (every
      one of them sits in a [try]/[except] that swallows the exception); the
      writes and the frames handed to transports are recorded as [Event]s.
    - [_broadcast_to_room] calls [leave_meeting_room] for every participant
      whose transport failed, and [leave_meeting_room] broadcasts again: the
      mutual recursion is driven by a fuel argument, and enough fuel is shown
      to always give a result. *)

From Stdlib Require Import ZArith Lia.
From Stdlib Require QArith.
From stdpp Require Import gmap strings list fin_maps.

Local Open Scope string_scope.
Local Open Scope list_scope.

Module signaling.

(** ** Time *)

Definition datetime := Z.
Definition timedelta := Z.

Definition seconds (n : Z) : timedelta := (n * 1000000)%Z.
Definition minutes (n : Z) : timedelta := seconds (60 * n).
Definition milliseconds (n : Z) : timedelta := (n * 1000)%Z.

(** ** Participants *)

Inductive ParticipantType := HUMAN | AI.

Definition ParticipantType_value (t : ParticipantType) : string :=
  match t with HUMAN => "human" | AI => "ai" end.

#[global] Instance ParticipantType_eq_dec : EqDecision ParticipantType.
Proof. solve_decision. Defined.

(** The transport of a participant: a network connection, or the in-process
    [AIWebSocketMock] that the agent registers for itself. *)
Inductive WebSocket :=
| Connection (conn : nat)
| AIWebSocketMock (meeting_id : string).

#[global] Instance WebSocket_eq_dec : EqDecision WebSocket.
Proof. solve_decision. Defined.

Record Participant := mkParticipant {
  user_id : string;
  websocket : WebSocket;
  participant_type : ParticipantType;
  is_organizer : bool;
  joined_at : datetime;
  audio_enabled : bool;
  voice_activity : bool;
  last_activity : datetime
}.

(** [Participant.__init__] *)
Definition new_Participant (now : datetime) (uid : string) (ws : WebSocket)
    (ptype : ParticipantType) (organizer : bool) : Participant :=
  {| user_id := uid; websocket := ws; participant_type := ptype;
     is_organizer := organizer; joined_at := now; audio_enabled := true;
     voice_activity := false; last_activity := now |}.

(** [Participant.to_dict]: the snapshot handed to callers. *)
Record ParticipantView := mkView {
  view_user_id : string;
  view_participant_type : string;
  view_is_organizer : bool;
  view_joined_at : datetime;
  view_audio_enabled : bool;
  view_voice_activity : bool;
  view_last_activity : datetime
}.

Definition to_dict (p : Participant) : ParticipantView :=
  {| view_user_id := user_id p;
     view_participant_type := ParticipantType_value (participant_type p);
     view_is_organizer := is_organizer p;
     view_joined_at := joined_at p;
     view_audio_enabled := audio_enabled p;
     view_voice_activity := voice_activity p;
     view_last_activity := last_activity p |}.

(** ** Rooms *)

Record MeetingRoom := mkRoom {
  room_id : string;
  max_participants : Z;
  participants : gmap string Participant;
  created_at : datetime;
  (** a reference to the agent's [Participant]; the source only ever tests
      it against [None] *)
  ai_participant : option Participant;
  conversation_state : string;
  current_speaker : option string;
  voice_activity_timeout : timedelta;
  ai_speaking_timeout : timedelta
}.

(** [MeetingRoom.__init__] *)
Definition new_MeetingRoom (now : datetime) (rid : string) (maxp : Z) : MeetingRoom :=
  {| room_id := rid; max_participants := maxp; participants := ∅;
     created_at := now; ai_participant := None;
     conversation_state := "waiting"; current_speaker := None;
     voice_activity_timeout := seconds 3; ai_speaking_timeout := seconds 30 |}.

Definition set_participants (ps : gmap string Participant) (r : MeetingRoom) : MeetingRoom :=
  {| room_id := room_id r; max_participants := max_participants r;
     participants := ps; created_at := created_at r;
     ai_participant := ai_participant r;
     conversation_state := conversation_state r;
     current_speaker := current_speaker r;
     voice_activity_timeout := voice_activity_timeout r;
     ai_speaking_timeout := ai_speaking_timeout r |}.

Definition set_ai_participant (p : option Participant) (r : MeetingRoom) : MeetingRoom :=
  {| room_id := room_id r; max_participants := max_participants r;
     participants := participants r; created_at := created_at r;
     ai_participant := p;
     conversation_state := conversation_state r;
     current_speaker := current_speaker r;
     voice_activity_timeout := voice_activity_timeout r;
     ai_speaking_timeout := ai_speaking_timeout r |}.

Definition set_speaking (speaker : option string) (st : string) (r : MeetingRoom) : MeetingRoom :=
  {| room_id := room_id r; max_participants := max_participants r;
     participants := participants r; created_at := created_at r;
     ai_participant := ai_participant r;
     conversation_state := st;
     current_speaker := speaker;
     voice_activity_timeout := voice_activity_timeout r;
     ai_speaking_timeout := ai_speaking_timeout r |}.

(** [len(self.participants)] as a Python integer *)
Definition participant_count (r : MeetingRoom) : Z := Z.of_nat (size (participants r)).

(** [MeetingRoom.add_participant] *)
Definition add_participant (p : Participant) (r : MeetingRoom) : bool * MeetingRoom :=
  if (max_participants r <=? participant_count r)%Z then (false, r)
  else (true, set_participants (<[user_id p := p]> (participants r)) r).

(** [MeetingRoom.remove_participant] *)
Definition remove_participant (uid : string) (r : MeetingRoom) : bool * MeetingRoom :=
  match participants r !! uid with
  | Some _ => (true, set_participants (delete uid (participants r)) r)
  | None => (false, r)
  end.

(** [self.participants.values()] *)
Definition participant_values (r : MeetingRoom) : list Participant :=
  (map_to_list (participants r)).*2.

(** [MeetingRoom.get_participant_list] *)
Definition get_participant_list (r : MeetingRoom) : list ParticipantView :=
  to_dict <$> participant_values r.

Definition is_human (p : Participant) : bool :=
  bool_decide (participant_type p = HUMAN).

(** [MeetingRoom.get_human_participants] *)
Definition get_human_participants (r : MeetingRoom) : list Participant :=
  List.filter is_human (participant_values r).

(** [MeetingRoom.has_human_participants] *)
Definition has_human_participants (r : MeetingRoom) : bool :=
  existsb is_human (participant_values r).

(** the list comprehension [[p.user_id for p in ... if p.voice_activity]] *)
Definition active_speakers (r : MeetingRoom) : list string :=
  user_id <$> List.filter voice_activity (participant_values r).

Definition set_flags (active : bool) (now : datetime) (p : Participant) : Participant :=
  {| user_id := user_id p; websocket := websocket p;
     participant_type := participant_type p; is_organizer := is_organizer p;
     joined_at := joined_at p; audio_enabled := audio_enabled p;
     voice_activity := active; last_activity := now |}.

(** [MeetingRoom.set_voice_activity] *)
Definition set_voice_activity (now : datetime) (uid : string) (is_active : bool)
    (r : MeetingRoom) : MeetingRoom :=
  match participants r !! uid with
  | None => r
  | Some p =>
      let r1 := set_participants (<[uid := set_flags is_active now p]> (participants r)) r in
      if is_active then
        set_speaking (Some uid)
          (if bool_decide (participant_type p = HUMAN) then "user_speaking" else "ai_speaking")
          r1
      else
        match active_speakers r1 with
        | [] => set_speaking None "active" r1
        | _ :: _ => r1
        end
  end.

(** [MeetingRoom.is_empty] *)
Definition is_empty (r : MeetingRoom) : bool :=
  bool_decide (size (participants r) = 0).

(** [MeetingRoom.should_cleanup] *)
Definition should_cleanup (now : datetime) (r : MeetingRoom) : bool :=
  if is_empty r then bool_decide (minutes 5 < now - created_at r)%Z else false.

(** ** The session manager *)

(** What a call hands to the outside world. *)
Inductive Event :=
| SendText (ws : WebSocket) (msg_type : string) (from_user : option string)
| Close (ws : WebSocket) (reason : string)
| DbParticipantSaved (rid uid : string)
| DbParticipantLeft (rid uid : string)
| AutoJoinScheduled (rid : string)
| AutoJoinCancelled (rid : string).

#[global] Instance Event_eq_dec : EqDecision Event.
Proof. solve_decision. Defined.

Record EnhancedSessionManager := mkManager {
  meeting_rooms : gmap string MeetingRoom;
  participant_to_room : gmap string string;
  (** the keys of [ai_auto_join_tasks]; a task is only stored, cancelled
      and deleted *)
  ai_auto_join_tasks : gset string
}.

(** [EnhancedSessionManager.__init__] *)
Definition new_manager : EnhancedSessionManager :=
  {| meeting_rooms := ∅; participant_to_room := ∅; ai_auto_join_tasks := ∅ |}.

Definition set_rooms (rs : gmap string MeetingRoom) (m : EnhancedSessionManager) :=
  {| meeting_rooms := rs; participant_to_room := participant_to_room m;
     ai_auto_join_tasks := ai_auto_join_tasks m |}.

Definition set_mapping (p2r : gmap string string) (m : EnhancedSessionManager) :=
  {| meeting_rooms := meeting_rooms m; participant_to_room := p2r;
     ai_auto_join_tasks := ai_auto_join_tasks m |}.

Definition set_tasks (ts : gset string) (m : EnhancedSessionManager) :=
  {| meeting_rooms := meeting_rooms m; participant_to_room := participant_to_room m;
     ai_auto_join_tasks := ts |}.

(** [EnhancedSessionManager.create_meeting_room] *)
Definition create_meeting_room (now : datetime) (rid : string) (maxp : Z)
    (m : EnhancedSessionManager) : MeetingRoom * EnhancedSessionManager :=
  match meeting_rooms m !! rid with
  | Some r => (r, m)
  | None =>
      let r := new_MeetingRoom now rid maxp in
      (r, set_rooms (<[rid := r]> (meeting_rooms m)) m)
  end.

(** [EnhancedSessionManager.get_room_participants] *)
Definition get_room_participants (rid : string) (m : EnhancedSessionManager)
    : list ParticipantView :=
  match meeting_rooms m !! rid with
  | Some r => get_participant_list r
  | None => []
  end.

(** [EnhancedSessionManager._cleanup_room] *)
Definition _cleanup_room (rid : string) (m : EnhancedSessionManager)
    : EnhancedSessionManager * list Event :=
  let m1 := set_rooms (delete rid (meeting_rooms m)) m in
  if bool_decide (rid ∈ ai_auto_join_tasks m)
  then (set_tasks (ai_auto_join_tasks m ∖ {[rid]}) m1, [AutoJoinCancelled rid])
  else (m1, []).

(** [EnhancedSessionManager._schedule_ai_auto_join]: the task is created and
    stored; what it does when it runs, five seconds later, is [ai_auto_join]
    below. *)
Definition _schedule_ai_auto_join (rid : string) (m : EnhancedSessionManager)
    : EnhancedSessionManager * list Event :=
  (set_tasks ({[rid]} ∪ ai_auto_join_tasks m) m, [AutoJoinScheduled rid]).

(** The test [exclude_user and participant.user_id == exclude_user]: an
    empty string is falsy and excludes nobody. *)
Definition excluded (exclude_user : option string) (p : Participant) : bool :=
  match exclude_user with
  | Some e => negb (bool_decide (e = EmptyString)) && bool_decide (user_id p = e)
  | None => false
  end.

Section Transport.

(** Which network connections still accept a frame. *)
Variable alive : nat → bool.

(** [send_text] returns normally: always for the agent's mock, which catches
    its own exceptions. *)
Definition send_ok (ws : WebSocket) : bool :=
  match ws with
  | Connection c => alive c
  | AIWebSocketMock _ => true
  end.

Definition Outcome (A : Type) : Type := option (A * EnhancedSessionManager * list Event).

(** The loop [for user_id in disconnected_participants: await
    self.leave_meeting_room(user_id)]. *)
Fixpoint leave_each (leave : string → EnhancedSessionManager → Outcome bool)
    (uids : list string) (m : EnhancedSessionManager)
    : option (EnhancedSessionManager * list Event) :=
  match uids with
  | [] => Some (m, [])
  | u :: us =>
      match leave u m with
      | None => None
      | Some (_, m1, ev1) =>
          match leave_each leave us m1 with
          | None => None
          | Some (m2, ev2) => Some (m2, ev1 ++ ev2)
          end
      end
  end.

(** The participants a broadcast addresses, and those among them whose
    transport raised. *)
Definition broadcast_targets (exclude_user : option string) (r : MeetingRoom)
    : list Participant :=
  List.filter (λ p, negb (excluded exclude_user p)) (participant_values r).

Definition disconnected_participants (exclude_user : option string) (r : MeetingRoom)
    : list string :=
  user_id <$> List.filter (λ p, negb (send_ok (websocket p)))
                (broadcast_targets exclude_user r).

(** [EnhancedSessionManager._broadcast_to_room], with the [leave_meeting_room]
    it calls back as a parameter. *)
Definition _broadcast_to_room (leave : string → EnhancedSessionManager → Outcome bool)
    (rid msg_type : string) (from_user exclude_user : option string)
    (m : EnhancedSessionManager) : option (EnhancedSessionManager * list Event) :=
  match meeting_rooms m !! rid with
  | None => Some (m, [])
  | Some r =>
      let sent := (λ p, SendText (websocket p) msg_type from_user)
                    <$> broadcast_targets exclude_user r in
      match leave_each leave (disconnected_participants exclude_user r) m with
      | None => None
      | Some (m', ev) => Some (m', sent ++ ev)
      end
  end.

(** [EnhancedSessionManager.leave_meeting_room].

    After the broadcast the source calls [room.should_cleanup()] on the room
    object it looked up at the start. If that object is still registered it
    is the registry's entry; if a nested leave has unregistered it (only an
    emptied room is ever unregistered, together with its task) the call to
    [_cleanup_room] finds nothing to delete. *)
Fixpoint leave_meeting_room (fuel : nat) (now : datetime) (uid : string)
    (m : EnhancedSessionManager) : Outcome bool :=
  match fuel with
  | O => None
  | S fuel' =>
      match participant_to_room m !! uid with
      | None => Some (false, m, [])
      | Some rid =>
          match meeting_rooms m !! rid with
          | None => Some (false, m, [])
          | Some room =>
              match remove_participant uid room with
              | (false, _) => Some (false, m, [])
              | (true, room') =>
                  let m1 := set_mapping (delete uid (participant_to_room m))
                              (set_rooms (<[rid := room']> (meeting_rooms m)) m) in
                  match _broadcast_to_room (leave_meeting_room fuel' now)
                          rid "participant_left" (Some uid) None m1 with
                  | None => None
                  | Some (m2, ev) =>
                      let '(m3, ev3) :=
                        match meeting_rooms m2 !! rid with
                        | Some r2 =>
                            if should_cleanup now r2 then _cleanup_room rid m2
                            else (m2, [])
                        | None => (m2, [])
                        end in
                      Some (true, m3, DbParticipantLeft rid uid :: ev ++ ev3)
                  end
              end
          end
      end
  end.

(** Fuel that suffices for any call on [m]: every nested leave that goes on
    to broadcast has first deleted a key of [participant_to_room]. *)
Definition enough_fuel (m : EnhancedSessionManager) : nat :=
  S (size (participant_to_room m)).

(** [EnhancedSessionManager.join_meeting_room] *)
Definition join_meeting_room (fuel : nat) (now : datetime) (rid uid : string)
    (ws : WebSocket) (ptype : ParticipantType) (organizer : bool)
    (m : EnhancedSessionManager) : Outcome bool :=
  let '(room, m0) :=
    match meeting_rooms m !! rid with
    | Some r => (r, m)
    | None => create_meeting_room now rid 10 m
    end in
  let participant := new_Participant now uid ws ptype organizer in
  match add_participant participant room with
  | (false, _) => Some (false, m0, [])
  | (true, room1) =>
      let room2 := if bool_decide (ptype = AI)
                   then set_ai_participant (Some participant) room1 else room1 in
      let m1 := set_mapping (<[uid := rid]> (participant_to_room m0))
                  (set_rooms (<[rid := room2]> (meeting_rooms m0)) m0) in
      match _broadcast_to_room (leave_meeting_room fuel now)
              rid "participant_joined" (Some uid) None m1 with
      | None => None
      | Some (m2, ev) =>
          let schedule :=
            match meeting_rooms m2 !! rid with
            | Some r2 =>
                bool_decide (ptype = HUMAN)
                && bool_decide (length (get_human_participants r2) = 1)
                && negb (bool_decide (is_Some (ai_participant r2)))
            | None => false
            end in
          let '(m3, ev3) :=
            if schedule then _schedule_ai_auto_join rid m2 else (m2, []) in
          Some (true, m3, DbParticipantSaved rid uid :: ev ++ ev3)
      end
  end.

(** [EnhancedSessionManager.handle_voice_activity] *)
Definition handle_voice_activity (fuel : nat) (now : datetime) (uid : string)
    (is_active : bool) (m : EnhancedSessionManager)
    : option (EnhancedSessionManager * list Event) :=
  match participant_to_room m !! uid with
  | None => Some (m, [])
  | Some rid =>
      match meeting_rooms m !! rid with
      | None => Some (m, [])
      | Some room =>
          let m1 := set_rooms (<[rid := set_voice_activity now uid is_active room]>
                                 (meeting_rooms m)) m in
          _broadcast_to_room (leave_meeting_room fuel now)
            rid "voice_activity" (Some uid) (Some uid) m1
      end
  end.

(** The body of the task started by [_schedule_ai_auto_join]. *)
Definition ai_auto_join (fuel : nat) (now : datetime) (rid : string)
    (m : EnhancedSessionManager) : option (EnhancedSessionManager * list Event) :=
  match meeting_rooms m !! rid with
  | Some room =>
      if has_human_participants room && negb (bool_decide (is_Some (ai_participant room)))
      then _broadcast_to_room (leave_meeting_room fuel now)
             rid "ai_auto_join_scheduled" (Some "system") None m
      else Some (m, [])
  | None => Some (m, [])
  end.

(** [EnhancedSessionManager.broadcast_to_room] *)
Definition broadcast_to_room (fuel : nat) (now : datetime) (rid msg_type : string)
    (from_user sender_user_id : option string) (m : EnhancedSessionManager)
    : option (EnhancedSessionManager * list Event) :=
  _broadcast_to_room (leave_meeting_room fuel now) rid msg_type from_user sender_user_id m.

(** The connection phase of [websocket_endpoint], for a caller-supplied
    non-empty user id: join, and close the socket when the room is full. *)
Definition websocket_endpoint_connect (fuel : nat) (now : datetime) (rid uid : string)
    (ws : WebSocket) (ptype : ParticipantType) (m : EnhancedSessionManager)
    : option (EnhancedSessionManager * list Event) :=
  match join_meeting_room fuel now rid uid ws ptype false m with
  | None => None
  | Some (false, m', ev) => Some (m', ev ++ [Close ws "Room is full"])
  | Some (true, m', ev) => Some (m', ev ++ [SendText ws "room_joined" (Some uid)])
  end.

End Transport.

End signaling.

Module orchestrator.
Import signaling.

Inductive ConversationState :=
| WAITING | ACTIVE | AI_SPEAKING | USER_SPEAKING | WAITING_FOR_RESPONSE
| LISTENING | PROCESSING | RESPONDING | COMPLETED.

#[global] Instance ConversationState_eq_dec : EqDecision ConversationState.
Proof. solve_decision. Defined.

(** One entry of [conversation_history]. *)
Record Message := mkMessage {
  speaker : string;
  message : string;
  timestamp : datetime;
  speaker_id : option string
}.

Record ConversationFlow := mkFlow {
  meeting_id : string;
  room_id : string;
  state : ConversationState;
  (** starts at 0 and is only ever incremented *)
  current_question_index : nat;
  questions : list string;
  conversation_history : list Message;
  lead_data : option (gmap string string);
  silence_timeout : timedelta;
  ai_response_delay : timedelta;
  max_questions : Z;
  last_activity : datetime
}.

(** [ConversationFlow.__init__] *)
Definition new_ConversationFlow (now : datetime) (mid rid : string) : ConversationFlow :=
  {| meeting_id := mid; room_id := rid; state := WAITING;
     current_question_index := 0; questions := []; conversation_history := [];
     lead_data := None; silence_timeout := seconds 5;
     ai_response_delay := seconds 2; max_questions := 7; last_activity := now |}.

Definition set_state (s : ConversationState) (f : ConversationFlow) : ConversationFlow :=
  {| meeting_id := meeting_id f; room_id := room_id f; state := s;
     current_question_index := current_question_index f; questions := questions f;
     conversation_history := conversation_history f; lead_data := lead_data f;
     silence_timeout := silence_timeout f; ai_response_delay := ai_response_delay f;
     max_questions := max_questions f; last_activity := last_activity f |}.

Definition set_index (i : nat) (f : ConversationFlow) : ConversationFlow :=
  {| meeting_id := meeting_id f; room_id := room_id f; state := state f;
     current_question_index := i; questions := questions f;
     conversation_history := conversation_history f; lead_data := lead_data f;
     silence_timeout := silence_timeout f; ai_response_delay := ai_response_delay f;
     max_questions := max_questions f; last_activity := last_activity f |}.

Definition set_history (h : list Message) (f : ConversationFlow) : ConversationFlow :=
  {| meeting_id := meeting_id f; room_id := room_id f; state := state f;
     current_question_index := current_question_index f; questions := questions f;
     conversation_history := h; lead_data := lead_data f;
     silence_timeout := silence_timeout f; ai_response_delay := ai_response_delay f;
     max_questions := max_questions f; last_activity := last_activity f |}.

Definition set_last_activity (t : datetime) (f : ConversationFlow) : ConversationFlow :=
  {| meeting_id := meeting_id f; room_id := room_id f; state := state f;
     current_question_index := current_question_index f; questions := questions f;
     conversation_history := conversation_history f; lead_data := lead_data f;
     silence_timeout := silence_timeout f; ai_response_delay := ai_response_delay f;
     max_questions := max_questions f; last_activity := t |}.

Definition set_lead_and_questions (ld : gmap string string) (qs : list string)
    (f : ConversationFlow) : ConversationFlow :=
  {| meeting_id := meeting_id f; room_id := room_id f; state := state f;
     current_question_index := current_question_index f; questions := qs;
     conversation_history := conversation_history f; lead_data := Some ld;
     silence_timeout := silence_timeout f; ai_response_delay := ai_response_delay f;
     max_questions := max_questions f; last_activity := last_activity f |}.

(** *** The question collaborators *)

(** [QuestionService._get_default_questions]: what the question service
    returns from its own [except]. Both collaborators it calls handle their
    errors themselves, so [generate_questions_for_lead] below does not come
    to it. *)
Definition _get_default_questions : list string :=
  [ "Can you tell me about your company and what you do?";
    "What are the main challenges you're facing in your business right now?";
    "How are you currently handling these challenges?";
    "What would an ideal solution look like for you?";
    "What's your timeline for making a decision on this?";
    "Who else would be involved in the decision-making process?";
    "What budget range are you working with for this project?" ].

(** [GeminiService._get_default_questions]: the list of the generation
    service, whose third question differs from the one above. *)
Definition gemini_default_questions : list string :=
  [ "Can you tell me about your company and what you do?";
    "What are the main challenges you're facing in your business right now?";
    "How are you currently handling [relevant process/area]?";
    "What would an ideal solution look like for you?";
    "What's your timeline for making a decision on this?";
    "Who else would be involved in the decision-making process?";
    "What budget range are you working with for this project?" ].

(** [GeminiService.generate_questions_for_lead]. [model_reply] is the list
    of questions read out of the model's reply, [None] when there is no
    model or the call raised: every path ends in the first seven questions
    of a non-empty list or in the service's own default list. *)
Definition gemini_generate_questions_for_lead (model_reply : option (list string))
    : list string :=
  match model_reply with
  | Some (q :: qs) => take 7 (q :: qs)
  | _ => gemini_default_questions
  end.

(** [QuestionService.generate_questions_for_lead]. [set_questions] is what
    [_get_questions_from_set] returned: the questions of the requested set,
    or the empty list (no set id, an empty set, a failed query). *)
Definition generate_questions_for_lead (set_questions : list string)
    (model_reply : option (list string)) : list string :=
  match set_questions with
  | _ :: _ => set_questions
  | [] => gemini_generate_questions_for_lead model_reply
  end.

(** [ConversationFlow.initialize] *)
Definition initialize (ld : gmap string string) (set_questions : list string)
    (model_reply : option (list string)) (f : ConversationFlow) : ConversationFlow :=
  set_lead_and_questions ld (generate_questions_for_lead set_questions model_reply) f.

(** *** Effects and exceptions of the flow *)

Inductive FlowEffect :=
| DbConversationEvent (mid : string) (msg : Message)
| AnalysisSpawned (mid : string).

Inductive Exception := AttributeError.

Inductive Result (A : Type) :=
| Returned (a : A) (f : ConversationFlow) (eff : list FlowEffect)
| Raised (e : Exception) (f : ConversationFlow) (eff : list FlowEffect).
Arguments Returned {A} a f eff.
Arguments Raised {A} e f eff.

(** [ConversationFlow._save_conversation_message] *)
Definition _save_conversation_message (now : datetime) (speaker_type msg : string)
    (sid : option string) (f : ConversationFlow) : ConversationFlow * list FlowEffect :=
  let message_data :=
    {| speaker := speaker_type; message := msg; timestamp := now; speaker_id := sid |} in
  (set_history (conversation_history f ++ [message_data]) f,
   [DbConversationEvent (meeting_id f) message_data]).

Definition default_opening_message : string :=
  "Hello! I'd like to learn more about your business needs. Can you tell me about your company?".

Definition completion_message : string :=
  "Thank you for sharing all that information with me. Let me analyze what we've discussed and provide you with a summary.".

Definition prompt_message : string :=
  "I'm here when you're ready to continue. Would you like me to repeat the question?".

(** the f-string of [start_conversation] *)
Definition opening_message (ld : gmap string string) (q0 : string) : string :=
  ("Hello! I'm an AI assistant here to learn more about "
   +:+ default "your business" (ld !! "company") +:+ ". " +:+ q0)%string.

(** [ConversationFlow.start_conversation] *)
Definition start_conversation (now : datetime) (f : ConversationFlow) : Result string :=
  match questions f with
  | [] => Returned default_opening_message f []
  | q0 :: _ =>
      let f1 := set_state AI_SPEAKING f in
      match lead_data f1 with
      | None => Raised AttributeError f1 []
      | Some ld =>
          let msg := opening_message ld q0 in
          let '(f2, eff) := _save_conversation_message now "ai" msg None f1 in
          Returned msg f2 eff
      end
  end.

Section Generation.

(** [gemini_service.generate_next_question]: it catches its own exceptions
    and always returns a question. *)
Variable generate_next_question :
  list Message → list string → option (gmap string string) → string.

(** [ConversationFlow._generate_next_question] *)
Definition _generate_next_question (now : datetime) (f : ConversationFlow)
    : string * ConversationFlow * list FlowEffect :=
  let f1 := set_index (S (current_question_index f)) f in
  let next_question :=
    match questions f1 !! current_question_index f1 with
    | Some q => q
    | None =>
        generate_next_question (conversation_history f1)
          (drop (current_question_index f1) (questions f1)) (lead_data f1)
    end in
  let f2 := set_state AI_SPEAKING f1 in
  let '(f3, eff) := _save_conversation_message now "ai" next_question None f2 in
  (next_question, f3, eff).

(** [ConversationFlow._complete_conversation] *)
Definition _complete_conversation (now : datetime) (f : ConversationFlow)
    : string * ConversationFlow * list FlowEffect :=
  let f1 := set_state COMPLETED f in
  let '(f2, eff) := _save_conversation_message now "ai" completion_message None f1 in
  (completion_message, f2, eff ++ [AnalysisSpawned (meeting_id f)]).

(** The test [len(self.conversation_history) >= self.max_questions * 2]. *)
Definition conversation_complete (f : ConversationFlow) : bool :=
  (max_questions f * 2 <=? Z.of_nat (length (conversation_history f)))%Z.

(** [ConversationFlow.process_user_response]. [now] is the instant the
    message is taken in; the reply is stamped [ai_response_delay] later. *)
Definition process_user_response (now : datetime) (user_message uid : string)
    (f : ConversationFlow) : string * ConversationFlow * list FlowEffect :=
  let '(f1, eff1) := _save_conversation_message now "human" user_message (Some uid) f in
  let f2 := set_last_activity now f1 in
  let later := (now + ai_response_delay f2)%Z in
  let '(reply, f3, eff2) :=
    if conversation_complete f2 then _complete_conversation later f2
    else _generate_next_question later f2 in
  (reply, f3, eff1 ++ eff2).

End Generation.

(** [ConversationFlow.should_prompt_user]. The source compares
    [total_seconds()], the exact count of microseconds divided by a million,
    with the timeout: on durations counted in microseconds this is the
    comparison of the two counts. *)
Definition should_prompt_user (now : datetime) (f : ConversationFlow) : bool :=
  if bool_decide (state f = WAITING_FOR_RESPONSE)
  then bool_decide (silence_timeout f < now - last_activity f)%Z
  else false.

(** [ConversationFlow.handle_silence_timeout] *)
Definition handle_silence_timeout (now : datetime) (f : ConversationFlow)
    : option string * ConversationFlow * list FlowEffect :=
  if should_prompt_user now f then
    let '(f1, eff) := _save_conversation_message now "ai" prompt_message None f in
    (Some prompt_message, f1, eff)
  else (None, f, []).

(** *** The orchestrator *)

(** What a query to the database gives back. *)
Inductive DbReply (A : Type) :=
| DbRaised
| DbRows (rows : list A).
Arguments DbRaised {A}.
Arguments DbRows {A} rows.

(** The columns of a [scheduled_meetings] row that the join reads. *)
Record ScheduledMeetingRow := mkMeetingRow {
  row_lead_id : string;
  row_question_set_id : option string
}.

(** What [voice_ai_service.text_to_speech] does on a text. *)
Inductive Speech := SpeechAudio | SpeechNone | SpeechRaised.

(** [AIVoiceParticipant] (the voice settings play no part here) *)
Record AIVoiceParticipant := mkVoice {
  voice_meeting_id : string;
  voice_room_id : string;
  is_speaking : bool
}.

Record AIMeetingOrchestrator := mkOrchestrator {
  active_conversations : gmap string ConversationFlow;
  (** the keys of [scheduled_joins] *)
  scheduled_joins : gset string;
  (** the module-level registry [ai_voice_participants] *)
  ai_voice_participants : gmap string AIVoiceParticipant
}.

Definition new_orchestrator : AIMeetingOrchestrator :=
  {| active_conversations := ∅; scheduled_joins := ∅; ai_voice_participants := ∅ |}.

Inductive Effect :=
| RoomEvent (e : Event)
| FlowEvent (e : FlowEffect)
| DbMeetingActive (mid : string)
| MonitorSpawned (mid : string)
| LogInfo (msg : string)
| LogWarning (msg : string)
| LogError (msg : string).

(** The view of a participant counts as human:
    [p["participant_type"] == "human"]. *)
Definition view_is_human (v : ParticipantView) : bool :=
  bool_decide (view_participant_type v = "human").

(** [AIMeetingOrchestrator._wait_for_participants]. [registry_at t] is the
    session manager as the other tasks have left it at instant [t]; one turn
    of the loop takes the five seconds of its [asyncio.sleep(5)]. The result
    carries the instant at which the wait ended. *)
Fixpoint _wait_for_participants_loop (fuel : nat)
    (registry_at : datetime → EnhancedSessionManager) (rid : string)
    (timeout_time now : datetime) : option (bool * datetime) :=
  match fuel with
  | O => None
  | S fuel' =>
      if bool_decide (now < timeout_time)%Z then
        match List.filter view_is_human (get_room_participants rid (registry_at now)) with
        | _ :: _ => Some (true, now)
        | [] => _wait_for_participants_loop fuel' registry_at rid timeout_time
                  (now + seconds 5)%Z
        end
      else Some (false, now)
  end.

(** Turns of the loop that fit in [timeout_minutes], plus the last test. *)
Definition wait_fuel (timeout_minutes : Z) : nat :=
  S (Z.to_nat (12 * timeout_minutes)).

Definition _wait_for_participants (registry_at : datetime → EnhancedSessionManager)
    (rid : string) (timeout_minutes : Z) (now : datetime) : option (bool * datetime) :=
  _wait_for_participants_loop (wait_fuel timeout_minutes) registry_at rid
    (now + minutes timeout_minutes)%Z now.

Section Collaborators.

Variable alive : nat → bool.
Variable text_to_speech : string → Speech.

Definition room_effects (ev : list Event) : list Effect := RoomEvent <$> ev.

(** [AIVoiceParticipant._speak_message]: every branch ends with
    [is_speaking] false again, so the participant object is as before. *)
Definition _speak_message (now : datetime) (rid text : string)
    (m : EnhancedSessionManager) : option (EnhancedSessionManager * list Event) :=
  match text_to_speech text with
  | SpeechRaised => Some (m, [])
  | SpeechAudio =>
      '(m1, ev1) ← broadcast_to_room alive (enough_fuel m) now rid
                      "ai_voice_message" (Some "ai-assistant") None m;
      '(m2, ev2) ← broadcast_to_room alive (enough_fuel m1) now rid
                      "ai_speaking_finished" (Some "ai-assistant") None m1;
      Some (m2, ev1 ++ ev2)
  | SpeechNone =>
      broadcast_to_room alive (enough_fuel m) now rid
        "ai_message" (Some "ai-assistant") None m
  end.

Definition greeting : string :=
  "Hello! I'm your AI meeting assistant. I'm here to learn about your business and help qualify this opportunity. Let's get started!".

(** [AIVoiceParticipant.join_meeting] *)
Definition join_meeting (now : datetime) (mid rid : string)
    (m : EnhancedSessionManager) : option (bool * EnhancedSessionManager * list Event) :=
  '(success, m1, ev1) ← join_meeting_room alive (enough_fuel m) now rid
                           "ai-assistant" (AIWebSocketMock mid) AI false m;
  if (success : bool) then
    '(m2, ev2) ← _speak_message now rid greeting m1;
    Some (true, m2, ev1 ++ ev2)
  else Some (false, m1, ev1).

(** A lead given by the caller is used unless it is [None] or empty. *)
Definition lead_given (lead : option (gmap string string)) : option (gmap string string) :=
  match lead with
  | Some ld => if bool_decide (ld = ∅) then None else Some ld
  | None => None
  end.

(** [AIMeetingOrchestrator.join_scheduled_meeting]. The replies of the
    database and of the question collaborators are arguments; the session
    manager the join works on is the one found when the wait ends; the whole
    body sits in a [try] whose handler logs and returns [False]. *)
Definition join_scheduled_meeting
    (registry_at : datetime → EnhancedSessionManager) (now : datetime)
    (mid rid : string) (lead : option (gmap string string))
    (meeting_reply : DbReply ScheduledMeetingRow)
    (lead_reply : DbReply (gmap string string))
    (set_questions : list string) (model_reply : option (list string))
    (status_update_ok : bool)
    (o : AIMeetingOrchestrator)
    : option (bool * AIMeetingOrchestrator * EnhancedSessionManager * list Effect) :=
  let m0 := registry_at now in
  match meeting_reply with
  | DbRaised => Some (false, o, m0, [LogError "Failed to join meeting"])
  | DbRows [] => Some (false, o, m0, [LogError "Meeting not found"])
  | DbRows (meeting_data :: _) =>
      let found_lead :=
        match lead_given lead with
        | Some ld => inr ld
        | None =>
            match lead_reply with
            | DbRaised => inl (LogError "Failed to join meeting")
            | DbRows [] => inl (LogError "Lead not found")
            | DbRows (ld :: _) => inr ld
            end
        end in
      match found_lead with
      | inl err => Some (false, o, m0, [err])
      | inr ld =>
          (* the result of the wait is dropped *)
          '(arrived, t) ← _wait_for_participants registry_at rid 10 now;
          let waited := if (arrived : bool) then [LogInfo "Found human participants"]
                        else [LogWarning "No human participants found"] in
          let m := registry_at t in
          let conversation :=
            initialize ld set_questions model_reply (new_ConversationFlow t mid rid) in
          let o1 := {| active_conversations := <[mid := conversation]> (active_conversations o);
                       scheduled_joins := scheduled_joins o;
                       ai_voice_participants := ai_voice_participants o |} in
          if negb status_update_ok
          then Some (false, o1, m, waited ++ [LogError "Failed to join meeting"])
          else
            '(m1, ev1) ← broadcast_to_room alive (enough_fuel m) t rid "ai_joined" None None m;
            let voice := {| voice_meeting_id := mid; voice_room_id := rid; is_speaking := false |} in
            let o2 := {| active_conversations := active_conversations o1;
                         scheduled_joins := scheduled_joins o1;
                         ai_voice_participants := <[mid := voice]> (ai_voice_participants o1) |} in
            '(_, m2, ev2) ← join_meeting t mid rid m1;
            match start_conversation t conversation with
            | Raised _ f eff =>
                Some (false,
                      {| active_conversations := <[mid := f]> (active_conversations o2);
                         scheduled_joins := scheduled_joins o2;
                         ai_voice_participants := ai_voice_participants o2 |},
                      m2,
                      waited ++ [DbMeetingActive mid] ++ room_effects (ev1 ++ ev2)
                        ++ (FlowEvent <$> eff) ++ [LogError "Failed to join meeting"])
            | Returned opening f eff =>
                '(m3, ev3) ← _speak_message t rid opening m2;
                Some (true,
                      {| active_conversations := <[mid := f]> (active_conversations o2);
                         scheduled_joins := scheduled_joins o2;
                         ai_voice_participants := ai_voice_participants o2 |},
                      m3,
                      waited ++ [DbMeetingActive mid] ++ room_effects (ev1 ++ ev2)
                        ++ (FlowEvent <$> eff) ++ room_effects ev3
                        ++ [MonitorSpawned mid; LogInfo "AI successfully joined meeting"])
            end
      end
  end.

End Collaborators.

End orchestrator.

(** * Scenarios

    Concrete rooms, managers and conversations on which the code is run. *)

Module scenarios.
Import signaling.

(** One voice-activity frame: the instant, the participant, the flag. *)
Definition Flip : Type := datetime * string * bool.

Definition apply_flip (r : MeetingRoom) (f : Flip) : MeetingRoom :=
  set_voice_activity f.1.1 f.1.2 f.2 r.

(** Flips processed one at a time. *)
Definition run_flips (fs : list Flip) (r : MeetingRoom) : MeetingRoom :=
  foldl apply_flip r fs.

(** A room for two with the humans [A] and [B] in it. *)
Definition room_AB : MeetingRoom :=
  (add_participant (new_Participant 2%Z "B" (Connection 2) HUMAN false)
     (add_participant (new_Participant 1%Z "A" (Connection 1) HUMAN false)
        (new_MeetingRoom 0%Z "R1" 2%Z)).2).2.

(** [A] starts speaking, [B] starts speaking, [B] stops. *)
Definition flips_A_B_notB : list Flip :=
  [ (10%Z, "A", true); (11%Z, "B", true); (12%Z, "B", false) ].

(** The room never shows a speaker while every flag is off. *)
Definition quiet_means_no_speaker (r : MeetingRoom) : Prop :=
  active_speakers r = [] → current_speaker r = None.

(** When exactly one participant is speaking, it is the current speaker. *)
Definition sole_speaker_is_current (r : MeetingRoom) : Prop :=
  ∀ u, active_speakers r = [u] → current_speaker r = Some u.

(** *** Runs of the session manager *)

Inductive Op :=
| CreateRoom (now : datetime) (rid : string) (maxp : Z)
| Join (now : datetime) (rid uid : string) (ws : WebSocket)
       (ptype : ParticipantType) (organizer : bool)
| Leave (now : datetime) (uid : string)
| VoiceActivity (now : datetime) (uid : string) (active : bool).

(** One call on the manager, with fuel that covers the participant the
    call itself may register. *)
Definition apply_op (alive : nat → bool) (m : EnhancedSessionManager) (op : Op)
    : option EnhancedSessionManager :=
  match op with
  | CreateRoom now rid maxp => Some (create_meeting_room now rid maxp m).2
  | Join now rid uid ws ptype organizer =>
      '(_, m', _) ← join_meeting_room alive (S (enough_fuel m)) now rid uid ws ptype organizer m;
      Some m'
  | Leave now uid =>
      '(_, m', _) ← leave_meeting_room alive (enough_fuel m) now uid m;
      Some m'
  | VoiceActivity now uid active =>
      '(m', _) ← handle_voice_activity alive (enough_fuel m) now uid active m;
      Some m'
  end.

Fixpoint run (alive : nat → bool) (ops : list Op) (m : EnhancedSessionManager)
    : option EnhancedSessionManager :=
  match ops with
  | [] => Some m
  | op :: ops' => m' ← apply_op alive m op; run alive ops' m'
  end.

(** A room is created with a maximum that is not negative. *)
Definition op_ok (op : Op) : Prop :=
  match op with
  | CreateRoom _ _ maxp => (0 ≤ maxp)%Z
  | _ => True
  end.





(** The room as a successful join leaves it. *)
Definition room_after_join (now : datetime) (uid : string) (ws : WebSocket)
    (ptype : ParticipantType) (organizer : bool) (room : MeetingRoom) : MeetingRoom :=
  let p := new_Participant now uid ws ptype organizer in
  let room1 := set_participants (<[uid := p]> (participants room)) room in
  if bool_decide (ptype = AI) then set_ai_participant (Some p) room1 else room1.

(** What a join may hand out when nobody has to be removed. *)
Definition join_event (rid uid : string) (e : Event) : Prop :=
  e = DbParticipantSaved rid uid
  ∨ (∃ ws', e = SendText ws' "participant_joined" (Some uid))
  ∨ e = AutoJoinScheduled rid.

(** The two ways in which a leave, nested leaves included, changes the
    manager: a mapped participant is taken out of its room, and an empty
    room is dropped from the registry. *)
Inductive shrink_step : EnhancedSessionManager → EnhancedSessionManager → Prop :=
| shrink_remove m uid rid room :
    participant_to_room m !! uid = Some rid →
    meeting_rooms m !! rid = Some room →
    is_Some (participants room !! uid) →
    shrink_step m
      (set_mapping (delete uid (participant_to_room m))
         (set_rooms (<[rid := set_participants (delete uid (participants room)) room]>
                       (meeting_rooms m)) m))
| shrink_cleanup m rid r :
    meeting_rooms m !! rid = Some r →
    is_empty r = true →
    shrink_step m (_cleanup_room rid m).1.

(** *** A room for two *)

Definition all_alive : nat → bool := λ _, true.

(** Room [R1] is created for two; [U1] and [U2] join. *)
Definition ops_fill_R1 : list Op :=
  [ CreateRoom 0%Z "R1" 2%Z;
    Join 1%Z "R1" "U1" (Connection 1) HUMAN true;
    Join 2%Z "R1" "U2" (Connection 2) HUMAN false ].

Definition manager_R1_full : EnhancedSessionManager :=
  default new_manager (run all_alive ops_fill_R1 new_manager).

Definition room_R1_full : MeetingRoom :=
  default (new_MeetingRoom 0%Z "R1" 2%Z) (meeting_rooms manager_R1_full !! "R1").



(** [U1] joins a new room and leaves it ten minutes later. *)
Definition ops_leave_after_ten_minutes : list Op :=
  [ Join 0%Z "R1" "U1" (Connection 1) HUMAN true;
    Leave (minutes 10) "U1" ].

(** [U1] joins a new room and leaves it one minute later. *)
Definition ops_leave_after_one_minute : list Op :=
  [ Join 0%Z "R1" "U1" (Connection 1) HUMAN true;
    Leave (minutes 1) "U1" ].

Definition manager_left_early : EnhancedSessionManager :=
  default new_manager (run all_alive ops_leave_after_one_minute new_manager).


(** A room for three with [U1] and [U2] in it. *)
Definition manager_R2_open : EnhancedSessionManager :=
  default new_manager
    (run all_alive
       [ CreateRoom 0%Z "R2" 3%Z;
         Join 1%Z "R2" "U1" (Connection 1) HUMAN true;
         Join 2%Z "R2" "U2" (Connection 2) HUMAN false ] new_manager).

Definition room_R2_open : MeetingRoom :=
  default (new_MeetingRoom 0%Z "R2" 3%Z) (meeting_rooms manager_R2_open !! "R2").

(** A manager whose mapping still names a room that is gone. *)
Definition manager_stale : EnhancedSessionManager :=
  {| meeting_rooms := ∅; participant_to_room := {[ "U1" := "R1" ]};
     ai_auto_join_tasks := ∅ |}.



End scenarios.

(** * Dialogues

    Runs of the conversation flow and of the scheduled join. *)

Module dialogues.
Import signaling.
Import orchestrator.

(** One answer of a human: the instant, the text, the user id. *)
Definition Response : Type := datetime * string * string.

Section Dialogue.

Variable generate_next_question :
  list Message → list string → option (gmap string string) → string.

Definition respond (f : ConversationFlow) (r : Response) : ConversationFlow :=
  (process_user_response generate_next_question r.1.1 r.1.2 r.2 f).1.2.

(** Answers processed one at a time, no silence prompt in between. *)
Definition process_all (rs : list Response) (f : ConversationFlow) : ConversationFlow :=
  foldl respond f rs.

End Dialogue.

(** The shape of a flow after [n] answered questions. *)
Definition in_progress (n : nat) (f : ConversationFlow) : Prop :=
  state f = AI_SPEAKING
  ∧ length (conversation_history f) = 2 * n + 1
  ∧ current_question_index f = n
  ∧ max_questions f = 7%Z.

(** A flow that has been waiting for an answer since [t0]. *)
Definition flow_waiting_since (t0 : datetime) : ConversationFlow :=
  set_state WAITING_FOR_RESPONSE
    (set_last_activity t0 (new_ConversationFlow t0 "M1" "R1")).

(** The flow as [handle_silence_timeout] leaves it. *)
Definition after_silence_check (now : datetime) (f : ConversationFlow) : ConversationFlow :=
  (handle_silence_timeout now f).1.2.

(** Once a prompt has been emitted, [should_prompt_user] is false again. *)
Definition prompt_resets_silence (now : datetime) (f : ConversationFlow) : Prop :=
  should_prompt_user now f = true →
  should_prompt_user now (after_silence_check now f) = false.

(** Six answers and a seventh, for a conversation about a lead of Acme. *)
Definition lead_acme : gmap string string := {[ "company" := "Acme"; "name" := "Ada" ]}.

Definition six_answers : list Response :=
  [ (10%Z, "answer 1", "U1"); (20%Z, "answer 2", "U1"); (30%Z, "answer 3", "U1");
    (40%Z, "answer 4", "U1"); (50%Z, "answer 5", "U1"); (60%Z, "answer 6", "U1") ].

Definition planned_questions : list string :=
  [ "Q1"; "Q2"; "Q3"; "Q4"; "Q5"; "Q6"; "Q7" ].

Definition follow_up : list Message → list string → option (gmap string string) → string :=
  λ _ _ _, "Can you tell me more about your current challenges?".

(** The registry of a meeting to which nobody comes. *)
Definition nobody_there : datetime → EnhancedSessionManager := λ _, new_manager.

Definition meeting_row_M1 : ScheduledMeetingRow :=
  {| row_lead_id := "L1"; row_question_set_id := None |}.

Definition no_speech : string → Speech := λ _, SpeechNone.

(** The scheduled join of meeting [M1] into room [R1], to which no human
    ever comes. *)
Definition auto_join_nobody_there :=
  join_scheduled_meeting (λ _, true) no_speech nobody_there 0%Z "M1" "R1"
    (Some lead_acme) (DbRows [meeting_row_M1]) (DbRows []) [] None true
    new_orchestrator.

End dialogues.

(** * Further code: the rest of the manager's life cycle, the endpoint's
    frames, and the life cycle of a conversation *)

Module upkeep.
Import signaling.
Import scenarios.

(** The manager once [uid] is registered in [room], the entry of [rid]:
    the state [join_meeting_room] broadcasts from. *)
Definition registered (now : datetime) (rid uid : string) (ws : WebSocket)
    (ptype : ParticipantType) (organizer : bool) (room : MeetingRoom)
    (m : EnhancedSessionManager) : EnhancedSessionManager :=
  set_mapping (<[uid := rid]> (participant_to_room m))
    (set_rooms (<[rid := room_after_join now uid ws ptype organizer room]>
                  (meeting_rooms m)) m).

(** The manager once a flag of [uid] is stored in [room], the entry of
    [rid]: the state [handle_voice_activity] broadcasts from. *)
Definition voiced (now : datetime) (rid uid : string) (active : bool)
    (room : MeetingRoom) (m : EnhancedSessionManager) : EnhancedSessionManager :=
  set_rooms (<[rid := set_voice_activity now uid active room]> (meeting_rooms m)) m.

(** Every entry of the mapping names a registered room that holds the
    participant. *)
Definition mapping_consistent (m : EnhancedSessionManager) : Prop :=
  ∀ u rid, participant_to_room m !! u = Some rid →
           ∃ room, meeting_rooms m !! rid = Some room
                   ∧ is_Some (participants room !! u).

(** A participant is stored under its own id. *)
Definition keys_are_ids (m : EnhancedSessionManager) : Prop :=
  ∀ rid room k p, meeting_rooms m !! rid = Some room →
                  participants room !! k = Some p → user_id p = k.

(** [uid] is mapped to a registered room that holds it: the condition under
    which [leave_meeting_room] removes it. *)
Definition seated (m : EnhancedSessionManager) (uid : string) : Prop :=
  ∃ rid room, participant_to_room m !! uid = Some rid
              ∧ meeting_rooms m !! rid = Some room
              ∧ is_Some (participants room !! uid).

(** [r'] is [r] with some participants taken out and nothing else touched. *)
Definition room_le (r' r : MeetingRoom) : Prop :=
  (∀ u p, participants r' !! u = Some p → participants r !! u = Some p)
  ∧ signaling.room_id r' = signaling.room_id r
  ∧ max_participants r' = max_participants r
  ∧ created_at r' = created_at r
  ∧ ai_participant r' = ai_participant r
  ∧ conversation_state r' = conversation_state r
  ∧ current_speaker r' = current_speaker r.

(** [m'] is [m] with rooms, participants and mapping entries taken out and
    nothing put in. *)
Definition manager_le (m' m : EnhancedSessionManager) : Prop :=
  (∀ rid r', meeting_rooms m' !! rid = Some r' →
             ∃ r, meeting_rooms m !! rid = Some r ∧ room_le r' r)
  ∧ (∀ u rid, participant_to_room m' !! u = Some rid →
              participant_to_room m !! u = Some rid)
  ∧ ai_auto_join_tasks m' ⊆ ai_auto_join_tasks m.

(** What a leave hands out: the record of the leave, the frames that
    announce it, the cancelling of a task. *)
Definition leave_event (e : Event) : Prop :=
  (∃ rid uid, e = DbParticipantLeft rid uid)
  ∨ (∃ ws from, e = SendText ws "participant_left" from)
  ∨ (∃ rid, e = AutoJoinCancelled rid).

(** The recipients a frame may have, given who is excluded. *)
Definition may_receive (exclude_user : option string) (p : Participant) : Prop :=
  match exclude_user with
  | Some e => e = EmptyString ∨ user_id p ≠ e
  | None => True
  end.

(** [U1] joins, the agent joins and leaves again. *)
Definition ops_agent_left : list Op :=
  [ Join 0%Z "R1" "U1" (Connection 1) HUMAN true;
    Join 1%Z "R1" "ai-assistant" (AIWebSocketMock "M1") AI false;
    Leave 2%Z "ai-assistant" ].

Definition manager_agent_left : EnhancedSessionManager :=
  default new_manager (run all_alive ops_agent_left new_manager).

Definition room_agent_left : MeetingRoom :=
  default (new_MeetingRoom 0%Z "R1" 10%Z) (meeting_rooms manager_agent_left !! "R1").

End upkeep.

Module lifecycle.
Import signaling.
Import orchestrator.

(** *** Lead status *)

(** The two entries of an analysis that decide the status of the lead:
    what [analysis.get] finds under [qualification_status] and under
    [lead_score], [None] for a missing key. A score is any number. *)
Record AnalysisVerdict := mkVerdict {
  verdict_status : option string;
  verdict_score : option QArith_base.Q
}.

(** [ConversationFlow._determine_lead_status] *)
Definition _determine_lead_status (analysis : AnalysisVerdict) : string :=
  let qualification_status := default "partially_qualified" (verdict_status analysis) in
  let lead_score := default (QArith_base.inject_Z 0) (verdict_score analysis) in
  if bool_decide (qualification_status = "qualified")
     && QArith_base.Qle_bool (QArith_base.inject_Z 80) lead_score then "hot"
  else if bool_decide (qualification_status = "qualified")
          && QArith_base.Qle_bool (QArith_base.inject_Z 60) lead_score then "warm"
  else if bool_decide (qualification_status = "partially_qualified") then "warm"
  else "cold".

(** The answers of the human in a history:
    [len([msg for msg in conversation_history if msg['speaker'] == 'human'])] *)
Definition human_message_count (h : list Message) : nat :=
  length (List.filter (λ msg, bool_decide (speaker msg = "human")) h).

(** The verdict of [GeminiService._get_default_analysis]:
    [min(message_count * 10, 70)] and [partially_qualified]. *)
Definition _get_default_analysis (h : list Message) : AnalysisVerdict :=
  {| verdict_status := Some "partially_qualified";
     verdict_score :=
       Some (QArith_base.inject_Z (Z.min (Z.of_nat (human_message_count h) * 10) 70)) |}.

(** How warm a status is. *)
Definition status_rank (s : string) : nat :=
  if bool_decide (s = "hot") then 2
  else if bool_decide (s = "warm") then 1
  else 0.

(** *** The calls a conversation receives *)

(** What no call on a flow touches, what it may only extend, and the state
    it can never produce. *)
Definition extends (f f' : ConversationFlow) : Prop :=
  (∃ added, conversation_history f' = conversation_history f ++ added)
  ∧ (current_question_index f ≤ current_question_index f')%nat
  ∧ questions f' = questions f
  ∧ lead_data f' = lead_data f
  ∧ max_questions f' = max_questions f
  ∧ silence_timeout f' = silence_timeout f
  ∧ orchestrator.meeting_id f' = orchestrator.meeting_id f
  ∧ orchestrator.room_id f' = orchestrator.room_id f
  ∧ (state f ≠ WAITING_FOR_RESPONSE → state f' ≠ WAITING_FOR_RESPONSE).

Inductive FlowOp :=
| OpStart (now : datetime)
| OpRespond (now : datetime) (user_message uid : string)
| OpSilence (now : datetime)
| OpComplete (now : datetime).

Definition result_flow {A} (r : Result A) : ConversationFlow :=
  match r with
  | Returned _ f _ => f
  | Raised _ f _ => f
  end.

Section Calls.

Variable generate_next_question :
  list Message → list string → option (gmap string string) → string.

(** One call on the flow: [start_conversation], [process_user_response],
    [handle_silence_timeout], [_complete_conversation]. *)
Definition apply_flow_op (f : ConversationFlow) (op : FlowOp) : ConversationFlow :=
  match op with
  | OpStart now => result_flow (start_conversation now f)
  | OpRespond now user_message uid =>
      (process_user_response generate_next_question now user_message uid f).1.2
  | OpSilence now => (handle_silence_timeout now f).1.2
  | OpComplete now => (_complete_conversation now f).1.2
  end.

Definition run_flow (ops : list FlowOp) (f : ConversationFlow) : ConversationFlow :=
  foldl apply_flow_op f ops.

(** *** The orchestrator's entry points *)

Variable alive : nat → bool.
Variable text_to_speech : string → Speech.

(** The reply of [gemini_service.analyze_conversation], which catches its
    own exceptions. *)
Variable Analysis : Type.
Variable analyze_conversation : list Message → option (gmap string string) → Analysis.

Definition set_conversations (cs : gmap string ConversationFlow)
    (o : AIMeetingOrchestrator) : AIMeetingOrchestrator :=
  {| active_conversations := cs; scheduled_joins := scheduled_joins o;
     ai_voice_participants := ai_voice_participants o |}.

(** [AIMeetingOrchestrator.process_user_message]. The conversation is
    changed in place, so the registry shows it as the call leaves it. The
    reply is spoken by the voice participant of the meeting, in the room that
    participant was created for, or else broadcast as text; an empty reply
    is not announced. *)
Definition process_user_message (now : datetime) (mid rid user_message uid : string)
    (o : AIMeetingOrchestrator) (m : EnhancedSessionManager)
    : option (option string * AIMeetingOrchestrator * EnhancedSessionManager * list Effect) :=
  match active_conversations o !! mid with
  | None => Some (None, o, m, [])
  | Some conversation =>
      let '(ai_response, conversation', eff) :=
        process_user_response generate_next_question now user_message uid conversation in
      let o' := set_conversations (<[mid := conversation']> (active_conversations o)) o in
      let later := (now + ai_response_delay conversation)%Z in
      if bool_decide (ai_response = EmptyString)
      then Some (Some ai_response, o', m, FlowEvent <$> eff)
      else
        match ai_voice_participants o !! mid with
        | Some voice =>
            '(m', ev) ← _speak_message alive text_to_speech later
                          (voice_room_id voice) ai_response m;
            Some (Some ai_response, o', m', (FlowEvent <$> eff) ++ (RoomEvent <$> ev))
        | None =>
            '(m', ev) ← broadcast_to_room alive (enough_fuel m) later rid
                          "ai_message" None None m;
            Some (Some ai_response, o', m', (FlowEvent <$> eff) ++ (RoomEvent <$> ev))
        end
  end.

(** [AIMeetingOrchestrator.end_meeting_gracefully]: the error dictionary, or
    the analysis. *)
Definition end_meeting_gracefully (now : datetime) (mid : string)
    (o : AIMeetingOrchestrator)
    : (string + Analysis) * AIMeetingOrchestrator * list FlowEffect :=
  match active_conversations o !! mid with
  | None => (inl "No active conversation found", o, [])
  | Some conversation =>
      let '(conversation', eff) :=
        if bool_decide (state conversation = COMPLETED) then (conversation, [])
        else let '(_, f, eff) := _complete_conversation now conversation in (f, eff) in
      let analysis :=
        analyze_conversation (conversation_history conversation') (lead_data conversation') in
      (inr analysis, set_conversations (delete mid (active_conversations o)) o, eff)
  end.

(** One turn of the loop of [_monitor_conversation_flow] on the conversation
    it fetched when it started: the loop ends once the conversation is
    completed; otherwise the silence check is made and the prompt it may
    give is broadcast. The boolean tells whether the loop goes on. *)
Definition monitor_tick (now : datetime) (rid : string)
    (conversation : ConversationFlow) (m : EnhancedSessionManager)
    : option (bool * ConversationFlow * EnhancedSessionManager * list Effect) :=
  if bool_decide (state conversation = COMPLETED) then Some (false, conversation, m, [])
  else
    let '(prompt, conversation', eff) := handle_silence_timeout now conversation in
    match prompt with
    | Some _ =>
        '(m', ev) ← broadcast_to_room alive (enough_fuel m) now rid "ai_message" None None m;
        Some (true, conversation', m', (FlowEvent <$> eff) ++ (RoomEvent <$> ev))
    | None => Some (true, conversation', m, FlowEvent <$> eff)
    end.

End Calls.

End lifecycle.

Module endpoint.
Import signaling.
Import orchestrator.
Import lifecycle.

(** What the receive loop of [websocket_endpoint] gets: the connection is
    gone, the text is not a JSON object, or a frame with its [type], its
    [to_user], its [is_active] flag and its [message] text. *)
Inductive Inbound :=
| Disconnected
| Malformed
| Frame (frame_type : option string) (to_user : option string)
        (is_active : bool) (text : string).

Inductive EndpointEffect :=
| Orchestrated (e : Effect)
| DbMessageSaved (rid uid text : string).

(** [if target_user:] *)
Definition truthy (s : option string) : bool :=
  match s with
  | Some t => negb (bool_decide (t = EmptyString))
  | None => false
  end.

Definition is_signaling (ty : option string) : bool :=
  bool_decide (ty = Some "offer") || bool_decide (ty = Some "answer")
  || bool_decide (ty = Some "ice").

Section Loop.

Variable generate_next_question :
  list Message → list string → option (gmap string string) → string.
Variable alive : nat → bool.
Variable text_to_speech : string → Speech.
(** [enhanced_manager.get_meeting_by_room_id]: the id of the meeting of a
    room, [None] when there is none or the lookup failed. *)
Variable meeting_of_room : string → option string.

Definition orchestrated (ev : list Event) : list EndpointEffect :=
  (λ e, Orchestrated (RoomEvent e)) <$> ev.

(** One turn of the receive loop of [websocket_endpoint] for the participant
    [uid] of kind [ptype] in room [rid]. The boolean tells whether the loop
    goes on. *)
Definition receive (now : datetime) (rid uid : string) (ptype : ParticipantType)
    (inbound : Inbound) (o : AIMeetingOrchestrator) (m : EnhancedSessionManager)
    : option (bool * AIMeetingOrchestrator * EnhancedSessionManager * list EndpointEffect) :=
  match inbound with
  | Disconnected | Malformed =>
      '(_, m', ev) ← leave_meeting_room alive (enough_fuel m) now uid m;
      Some (false, o, m', orchestrated ev)
  | Frame ty to_user is_active text =>
      if bool_decide (ty = Some "voice_activity") then
        '(m', ev) ← handle_voice_activity alive (enough_fuel m) now uid is_active m;
        Some (true, o, m', orchestrated ev)
      else if is_signaling ty then
        if truthy to_user then Some (true, o, m, [])
        else
          '(m', ev) ← broadcast_to_room alive (enough_fuel m) now rid
                        (default EmptyString ty) (Some uid) (Some uid) m;
          Some (true, o, m', orchestrated ev)
      else if bool_decide (ty = Some "conversation_message") then
        '(m1, ev1) ← broadcast_to_room alive (enough_fuel m) now rid
                       "conversation_message" (Some uid) (Some uid) m;
        let saved := orchestrated ev1 ++ [DbMessageSaved rid uid text] in
        match ptype, meeting_of_room rid with
        | HUMAN, Some mid =>
            '(_, o', m2, eff) ← process_user_message generate_next_question alive
                                   text_to_speech now mid rid text uid o m1;
            Some (true, o', m2, saved ++ (Orchestrated <$> eff))
        | _, _ => Some (true, o, m1, saved)
        end
      else
        '(m', ev) ← broadcast_to_room alive (enough_fuel m) now rid
                      (default EmptyString ty) (Some uid) (Some uid) m;
        Some (true, o, m', orchestrated ev)
  end.

End Loop.

End endpoint.

(** * Properties of the room and of the session manager *)

Import signaling.
Import scenarios.

Example room_AB_has_two : participant_count room_AB = 2%Z.
Proof. vm_compute. reflexivity. Qed.

Example run_flips_example :
  active_speakers (run_flips flips_A_B_notB room_AB) = ["A"]
  ∧ current_speaker (run_flips flips_A_B_notB room_AB) = Some "B".
Proof. vm_compute. split; reflexivity. Qed.

(** ** Voice-activity arbitration *)

Lemma filter_nil_iff {A} (f : A → bool) (l : list A) :
  List.filter f l = [] ↔ ∀ x, x ∈ l → f x = false.
Proof.
  induction l as [|a l IH]; simpl.
  - split; [intros _ x Hx; inversion Hx | done].
  - destruct (f a) eqn:Hfa.
    + split; [done |]. intros H. specialize (H a (list_elem_of_here _ _)). congruence.
    + rewrite IH. split.
      * intros H x Hx. inversion Hx; subst; auto.
      * intros H x Hx. apply H. by apply list_elem_of_further.
Qed.

Lemma participant_values_elem (r : MeetingRoom) (p : Participant) :
  p ∈ participant_values r ↔ ∃ k, participants r !! k = Some p.
Proof.
  unfold participant_values. rewrite list_elem_of_fmap. split.
  - intros [[k q] [-> H]]. exists k. by apply elem_of_map_to_list in H.
  - intros [k H]. exists (k, p). split; [done |]. by apply elem_of_map_to_list.
Qed.

(** Nobody is listed as speaking exactly when every stored flag is off. *)
Lemma active_speakers_nil (r : MeetingRoom) :
  active_speakers r = [] ↔
  ∀ k p, participants r !! k = Some p → voice_activity p = false.
Proof.
  unfold active_speakers. split.
  - intros H k p Hk. apply fmap_nil_inv in H.
    rewrite filter_nil_iff in H. apply H, participant_values_elem. eauto.
  - intros H. replace (List.filter voice_activity (participant_values r)) with (@nil Participant);
      [done |].
    symmetry. apply filter_nil_iff. intros p [k Hk]%participant_values_elem. eauto.
Qed.

Lemma set_voice_activity_absent now uid a (r : MeetingRoom) :
  participants r !! uid = None → set_voice_activity now uid a r = r.
Proof. intros H. unfold set_voice_activity. by rewrite H. Qed.

Lemma set_voice_activity_on now uid (r : MeetingRoom) p :
  participants r !! uid = Some p →
  set_voice_activity now uid true r =
  set_speaking (Some uid)
    (if bool_decide (participant_type p = HUMAN) then "user_speaking" else "ai_speaking")
    (set_participants (<[uid := set_flags true now p]> (participants r)) r).
Proof. intros H. unfold set_voice_activity. by rewrite H. Qed.

Lemma set_voice_activity_quiet now uid a (r : MeetingRoom) :
  quiet_means_no_speaker r → quiet_means_no_speaker (set_voice_activity now uid a r).
Proof.
  intros Hq. unfold set_voice_activity.
  destruct (participants r !! uid) as [p|] eqn:Hp; [| done].
  destruct a.
  - intros Hnil. exfalso.
    rewrite active_speakers_nil in Hnil.
    specialize (Hnil uid (set_flags true now p)). simpl in Hnil.
    rewrite lookup_insert_eq in Hnil. by specialize (Hnil eq_refl).
  - destruct (active_speakers _) eqn:Hact; [done |].
    intros Hnil. congruence.
Qed.

Lemma run_flips_quiet fs (r : MeetingRoom) :
  quiet_means_no_speaker r → quiet_means_no_speaker (run_flips fs r).
Proof.
  revert r. induction fs as [|f fs IH]; intros r Hq; [done |].
  simpl. apply IH. by apply set_voice_activity_quiet.
Qed.

(** C2, as amended. From a room that shows no speaker while nobody is
    active, after any sequence of voice-activity flips processed one at a
    time the room again shows no speaker when nobody is active; and the next
    flip of a participant of the room behaves as follows. Flipping it active
    makes it the current speaker, with state [user_speaking] or [ai_speaking]
    according to its kind. Flipping it inactive re-scans all participants:
    when nobody is active any more the current speaker is cleared and the
    state becomes [active]; when somebody still is, the current speaker and
    the state are left as they were. *)
Theorem voice_activity_arbitration (r : MeetingRoom) (fs : list Flip) :
  quiet_means_no_speaker r →
  let r' := run_flips fs r in
  quiet_means_no_speaker r'
  ∧ ∀ now uid p, participants r' !! uid = Some p →
      (current_speaker (set_voice_activity now uid true r') = Some uid
       ∧ conversation_state (set_voice_activity now uid true r') =
           (if bool_decide (participant_type p = HUMAN)
            then "user_speaking" else "ai_speaking"))
      ∧ (let r'' := set_voice_activity now uid false r' in
         match active_speakers r'' with
         | [] => current_speaker r'' = None ∧ conversation_state r'' = "active"
         | _ :: _ => current_speaker r'' = current_speaker r'
                     ∧ conversation_state r'' = conversation_state r'
         end).
Proof.
  intros Hq r'. split; [by apply run_flips_quiet |].
  intros now uid p Hp. split.
  - by rewrite (set_voice_activity_on now uid r' p Hp).
  - unfold set_voice_activity. rewrite Hp.
    destruct (active_speakers (set_participants _ r')) eqn:Hact.
    + change (active_speakers (set_speaking None "active"
                (set_participants (<[uid:=set_flags false now p]> (participants r')) r')))
        with (active_speakers
                (set_participants (<[uid:=set_flags false now p]> (participants r')) r')).
      by rewrite Hact.
    + by rewrite Hact.
Qed.

Lemma voice_activity_arbitration_witness :
  quiet_means_no_speaker room_AB
  ∧ quiet_means_no_speaker (run_flips flips_A_B_notB room_AB).
Proof.
  assert (H : quiet_means_no_speaker room_AB) by (intros _; reflexivity).
  split; [exact H |].
  exact (proj1 (voice_activity_arbitration room_AB flips_A_B_notB H)).
Defined.

(** C2 as stated fails: with [A] and [B] both speaking, [B] stops; [A] is
    then the only participant whose flag is on, yet the current speaker is
    still [B]. *)
Lemma sole_speaker_not_current :
  ¬ sole_speaker_is_current (run_flips flips_A_B_notB room_AB).
Proof.
  intros H.
  assert (Hact : active_speakers (run_flips flips_A_B_notB room_AB) = ["A"])
    by (vm_compute; reflexivity).
  apply H in Hact. vm_compute in Hact. discriminate Hact.
Qed.

(** ** Leaving: what a leave can change, and that it returns *)

Section Leaving.

Variable alive : nat → bool.

Lemma should_cleanup_empty now (r : MeetingRoom) :
  should_cleanup now r = true → is_empty r = true.
Proof. unfold should_cleanup. by destruct (is_empty r). Qed.

Lemma leave_each_shrinks leave uids :
  (∀ u m b m' ev, leave u m = Some (b, m', ev) → rtc shrink_step m m') →
  ∀ m m' ev, leave_each leave uids m = Some (m', ev) → rtc shrink_step m m'.
Proof.
  intros Hleave. induction uids as [|u us IH]; intros m m' ev H; simpl in H.
  - by simplify_eq.
  - destruct (leave u m) as [[[b m1] ev1]|] eqn:H1; [| done].
    destruct (leave_each leave us m1) as [[m2 ev2]|] eqn:H2; [| done].
    simplify_eq. etrans; [by eapply Hleave | by eapply IH].
Qed.

Lemma broadcast_shrinks leave rid ty from excl m m' ev :
  (∀ u m b m' ev, leave u m = Some (b, m', ev) → rtc shrink_step m m') →
  _broadcast_to_room alive leave rid ty from excl m = Some (m', ev) →
  rtc shrink_step m m'.
Proof.
  intros Hleave. unfold _broadcast_to_room.
  destruct (meeting_rooms m !! rid) as [r|]; [| by intros; simplify_eq].
  destruct (leave_each _ _ _) as [[m2 ev2]|] eqn:H2; [| done].
  intros; simplify_eq. by eapply leave_each_shrinks.
Qed.

Lemma leave_shrinks fuel now :
  ∀ uid m b m' ev,
    leave_meeting_room alive fuel now uid m = Some (b, m', ev) → rtc shrink_step m m'.
Proof.
  induction fuel as [|fuel IH]; intros uid m b m' ev H; simpl in H; [done |].
  destruct (participant_to_room m !! uid) as [rid|] eqn:Hmap; [| by simplify_eq].
  destruct (meeting_rooms m !! rid) as [room|] eqn:Hroom; [| by simplify_eq].
  unfold remove_participant in H.
  destruct (participants room !! uid) as [p|] eqn:Hp; [| by simplify_eq].
  destruct (_broadcast_to_room _ _ _ _ _ _ _) as [[m2 ev2]|] eqn:Hb; [| done].
  apply broadcast_shrinks in Hb; [| exact IH].
  assert (Hstep : rtc shrink_step m m2).
  { eapply rtc_l; [| exact Hb]. by eapply shrink_remove. }
  destruct (meeting_rooms m2 !! rid) as [r2|] eqn:Hr2.
  - destruct (should_cleanup now r2) eqn:Hc.
    + destruct (_cleanup_room rid m2) as [m3 ev3] eqn:Hcl. simplify_eq.
      eapply rtc_r; [exact Hstep |].
      replace m' with (_cleanup_room rid m2).1 by by rewrite Hcl.
      eapply shrink_cleanup; [done | by eapply should_cleanup_empty].
    + by simplify_eq.
  - by simplify_eq.
Qed.

Lemma cleanup_mapping rid m :
  participant_to_room (_cleanup_room rid m).1 = participant_to_room m.
Proof. unfold _cleanup_room. by destruct (bool_decide _). Qed.

Lemma cleanup_rooms rid m :
  meeting_rooms (_cleanup_room rid m).1 = delete rid (meeting_rooms m).
Proof. unfold _cleanup_room. by destruct (bool_decide _). Qed.

Lemma shrink_step_mapping m m' :
  shrink_step m m' →
  (size (participant_to_room m') ≤ size (participant_to_room m))%nat
  ∧ ∀ u, participant_to_room m !! u = None → participant_to_room m' !! u = None.
Proof.
  destruct 1 as [m uid rid room Hmap Hroom Hp | m rid r Hr He].
  - simpl. split.
    + rewrite map_size_delete_Some by eauto. lia.
    + intros u Hu. destruct (decide (u = uid)) as [->|Hne].
      * apply lookup_delete_eq.
      * by rewrite lookup_delete_ne.
  - by rewrite cleanup_mapping.
Qed.

Lemma shrinks_mapping m m' :
  rtc shrink_step m m' →
  (size (participant_to_room m') ≤ size (participant_to_room m))%nat
  ∧ ∀ u, participant_to_room m !! u = None → participant_to_room m' !! u = None.
Proof.
  induction 1 as [m | m m1 m2 Hstep _ [IH1 IH2]]; [done |].
  apply shrink_step_mapping in Hstep as [H1 H2]. split; [lia | auto].
Qed.

Lemma leave_each_returns leave uids bound :
  (∀ u m b m' ev, leave u m = Some (b, m', ev) → rtc shrink_step m m') →
  (∀ u m, (size (participant_to_room m) ≤ bound)%nat → is_Some (leave u m)) →
  ∀ m, (size (participant_to_room m) ≤ bound)%nat → is_Some (leave_each leave uids m).
Proof.
  intros Hshrink Htotal. induction uids as [|u us IH]; intros m Hm; simpl; [eauto |].
  destruct (Htotal u m Hm) as [[[b m1] ev1] H1]. rewrite H1.
  apply Hshrink, shrinks_mapping in H1 as [Hsize _].
  destruct (IH m1) as [[m2 ev2] H2]; [lia |]. rewrite H2. eauto.
Qed.

Lemma broadcast_returns leave rid ty from excl bound m :
  (∀ u m b m' ev, leave u m = Some (b, m', ev) → rtc shrink_step m m') →
  (∀ u m, (size (participant_to_room m) ≤ bound)%nat → is_Some (leave u m)) →
  (size (participant_to_room m) ≤ bound)%nat →
  is_Some (_broadcast_to_room alive leave rid ty from excl m).
Proof.
  intros Hshrink Htotal Hm. unfold _broadcast_to_room.
  destruct (meeting_rooms m !! rid) as [r|]; [| eauto].
  destruct (leave_each_returns leave (disconnected_participants alive excl r) bound
              Hshrink Htotal m Hm) as [[m2 ev2] H2].
  rewrite H2. eauto.
Qed.

(** With more fuel than there are mapped participants, a leave returns. *)
Lemma leave_returns fuel now :
  ∀ uid m, (size (participant_to_room m) < fuel)%nat →
           is_Some (leave_meeting_room alive fuel now uid m).
Proof.
  induction fuel as [|fuel IH]; intros uid m Hm; [lia |]. simpl.
  destruct (participant_to_room m !! uid) as [rid|] eqn:Hmap; [| eauto].
  destruct (meeting_rooms m !! rid) as [room|] eqn:Hroom; [| eauto].
  unfold remove_participant.
  destruct (participants room !! uid) as [p|] eqn:Hp; [| eauto].
  match goal with |- context [_broadcast_to_room ?a ?l ?r ?t ?f ?e ?m1] =>
    destruct (broadcast_returns l r t f e (pred fuel) m1) as [[m2 ev2] Hb] end.
  - intros. by eapply leave_shrinks.
  - intros u m0 Hm0. apply IH.
    assert (size (participant_to_room m) ≠ 0).
    { apply map_size_non_empty_iff. intros Hempty. rewrite Hempty in Hmap.
      by rewrite lookup_empty in Hmap. }
    lia.
  - simpl. rewrite map_size_delete_Some by eauto. lia.
  - rewrite Hb.
    destruct (meeting_rooms m2 !! rid) as [r2|]; [| eauto].
    destruct (should_cleanup now r2); [| eauto].
    destruct (_cleanup_room rid m2). eauto.
Qed.

End Leaving.

(** ** Leaving twice, and leaving when there is nothing to leave *)

Lemma leave_no_room alive fuel now uid m :
  (0 < fuel)%nat →
  (participant_to_room m !! uid = None
   ∨ (∃ rid, participant_to_room m !! uid = Some rid ∧ meeting_rooms m !! rid = None)
   ∨ (∃ rid room, participant_to_room m !! uid = Some rid
                  ∧ meeting_rooms m !! rid = Some room
                  ∧ participants room !! uid = None)) →
  leave_meeting_room alive fuel now uid m = Some (false, m, []).
Proof.
  intros Hfuel H. destruct fuel as [|fuel]; [lia |]. simpl.
  destruct H as [H | [(rid & H1 & H2) | (rid & room & H1 & H2 & H3)]].
  - by rewrite H.
  - by rewrite H1, H2.
  - rewrite H1, H2. unfold remove_participant. by rewrite H3.
Qed.

(** What the result of a leave tells about the state it was called on and
    the state it leaves behind. *)
Lemma leave_outcome alive fuel now uid m b m1 ev :
  leave_meeting_room alive fuel now uid m = Some (b, m1, ev) →
  if b then participant_to_room m1 !! uid = None
  else m1 = m ∧ ev = []
       ∧ (participant_to_room m !! uid = None
          ∨ (∃ rid, participant_to_room m !! uid = Some rid
                    ∧ meeting_rooms m !! rid = None)
          ∨ (∃ rid room, participant_to_room m !! uid = Some rid
                         ∧ meeting_rooms m !! rid = Some room
                         ∧ participants room !! uid = None)).
Proof.
  destruct fuel as [|fuel]; [done |]. simpl.
  destruct (participant_to_room m !! uid) as [rid|] eqn:Hmap;
    [| intros; simplify_eq; eauto].
  destruct (meeting_rooms m !! rid) as [room|] eqn:Hroom;
    [| intros; simplify_eq; eauto 10].
  unfold remove_participant.
  destruct (participants room !! uid) as [p|] eqn:Hp;
    [| intros; simplify_eq; eauto 10].
  destruct (_broadcast_to_room _ _ _ _ _ _ _) as [[m2 ev2]|] eqn:Hb; [| done].
  apply broadcast_shrinks in Hb; [| intros; by eapply leave_shrinks].
  apply shrinks_mapping in Hb as [_ Hb]. specialize (Hb uid).
  simpl in Hb. rewrite lookup_delete_eq in Hb. specialize (Hb eq_refl).
  intros H.
  destruct (meeting_rooms m2 !! rid) as [r2|].
  - destruct (should_cleanup now r2).
    + destruct (_cleanup_room rid m2) as [m3 ev3] eqn:Hcl. simplify_eq.
      replace m1 with (_cleanup_room rid m2).1 by by rewrite Hcl.
      by rewrite cleanup_mapping.
    + by simplify_eq.
  - by simplify_eq.
Qed.

(** C8. [leave] is idempotent: with enough fuel the first call returns, and
    a second call for the same participant, at any later instant and
    whatever the transports do, returns [False] and leaves the manager
    (rooms, their participants, the mapping) exactly as the first call left
    it. *)
Theorem leave_idempotent alive alive' fuel fuel' now now' uid m :
  (size (participant_to_room m) < fuel)%nat → (0 < fuel')%nat →
  ∃ b m1 ev,
    leave_meeting_room alive fuel now uid m = Some (b, m1, ev)
    ∧ leave_meeting_room alive' fuel' now' uid m1 = Some (false, m1, []).
Proof.
  intros Hfuel Hfuel'.
  destruct (leave_returns alive fuel now uid m Hfuel) as [[[b m1] ev] H].
  exists b, m1, ev. split; [exact H |].
  apply leave_outcome in H. apply leave_no_room; [exact Hfuel' |].
  destruct b.
  - by left.
  - by destruct H as (-> & _ & H).
Qed.

Lemma leave_idempotent_witness :
  ∃ b m1 ev,
    leave_meeting_room all_alive 3 10%Z "U1" manager_R1_full = Some (b, m1, ev)
    ∧ leave_meeting_room all_alive 1 11%Z "U1" m1 = Some (false, m1, []).
Proof.
  apply (leave_idempotent all_alive all_alive 3 1 10%Z 11%Z "U1" manager_R1_full).
  - vm_compute. lia.
  - lia.
Defined.

(** C10. A leave for a participant whose mapped room is no longer
    registered, or who is not mapped at all, returns [False] and changes
    nothing: the stale mapping entry stays where it is. *)
Theorem leave_stale_or_unmapped alive fuel now uid m :
  (0 < fuel)%nat →
  (participant_to_room m !! uid = None
   ∨ ∃ rid, participant_to_room m !! uid = Some rid ∧ meeting_rooms m !! rid = None) →
  leave_meeting_room alive fuel now uid m = Some (false, m, []).
Proof.
  intros Hfuel [H | H]; apply leave_no_room; auto.
Qed.

Lemma leave_stale_or_unmapped_witness :
  leave_meeting_room all_alive 1 5%Z "U1" manager_stale = Some (false, manager_stale, [])
  ∧ participant_to_room manager_stale !! "U1" = Some "R1".
Proof.
  split.
  - apply (leave_stale_or_unmapped all_alive 1 5%Z "U1" manager_stale); [lia |].
    right. exists "R1". split; reflexivity.
  - reflexivity.
Defined.

(** ** Joining a room that is full *)

(** Room [R1] holds two; [U1] and [U2] are in: [U3] is turned away, and gets
    in once [U1] has left. *)
Example third_joins_after_first_left :
  ∃ m1 ev1 m2 ev2 room,
    join_meeting_room all_alive 4 3%Z "R1" "U3" (Connection 3) HUMAN false manager_R1_full
    = Some (false, manager_R1_full, [])
    ∧ leave_meeting_room all_alive 3 4%Z "U1" manager_R1_full = Some (true, m1, ev1)
    ∧ join_meeting_room all_alive 4 5%Z "R1" "U3" (Connection 3) HUMAN false m1
      = Some (true, m2, ev2)
    ∧ meeting_rooms m2 !! "R1" = Some room
    ∧ participants room !! "U1" = None
    ∧ is_Some (participants room !! "U2")
    ∧ is_Some (participants room !! "U3").
Proof.
  eexists _, _, _, _, _.
  split; [vm_compute; reflexivity |].
  split; [vm_compute; reflexivity |].
  split; [vm_compute; reflexivity |].
  split; [vm_compute; reflexivity |].
  split; [reflexivity |]. split; by eexists.
Qed.


(** C4. In a room whose participant count equals its maximum every join is
    rejected: [add_participant] and [join_meeting_room] return [False], the
    manager (the room, its participants, the mapping) is unchanged and
    nothing is sent; the endpoint then closes the socket with the reason
    that the room is full. *)
Theorem join_full_room_rejected alive fuel now rid uid ws ptype organizer m room :
  meeting_rooms m !! rid = Some room →
  participant_count room = max_participants room →
  add_participant (new_Participant now uid ws ptype organizer) room = (false, room)
  ∧ join_meeting_room alive fuel now rid uid ws ptype organizer m = Some (false, m, [])
  ∧ websocket_endpoint_connect alive fuel now rid uid ws ptype m
    = Some (m, [Close ws "Room is full"]).
Proof.
  intros Hroom Hfull.
  assert (Hadd : ∀ p, add_participant p room = (false, room)).
  { intros p. unfold add_participant. rewrite Hfull.
    by rewrite Z.leb_refl. }
  assert (Hjoin : ∀ org, join_meeting_room alive fuel now rid uid ws ptype org m
                         = Some (false, m, [])).
  { intros org. unfold join_meeting_room. rewrite Hroom. by rewrite Hadd. }
  split; [apply Hadd |]. split; [apply Hjoin |].
  unfold websocket_endpoint_connect. by rewrite Hjoin.
Qed.

Lemma join_full_room_rejected_witness :
  join_meeting_room all_alive 4 3%Z "R1" "U3" (Connection 3) HUMAN false manager_R1_full
  = Some (false, manager_R1_full, []).
Proof.
  refine (proj1 (proj2 (join_full_room_rejected all_alive 4 3%Z "R1" "U3" (Connection 3)
                          HUMAN false manager_R1_full room_R1_full _ _))).
  - vm_compute. reflexivity.
  - vm_compute. reflexivity.
Defined.

(** ** Capacity and the current speaker along runs of the manager *)







Section Runs.

Variable alive : nat → bool.



End Runs.

Section RunsReturn.

Variable alive : nat → bool.

Lemma create_mapping now rid maxp m :
  participant_to_room (create_meeting_room now rid maxp m).2 = participant_to_room m.
Proof. unfold create_meeting_room. by destruct (meeting_rooms m !! rid). Qed.

Lemma broadcast_with_fuel_returns fuel now rid ty from excl m :
  (size (participant_to_room m) < fuel)%nat →
  is_Some (_broadcast_to_room alive (leave_meeting_room alive fuel now) rid ty from excl m).
Proof.
  intros Hm. apply (broadcast_returns alive _ rid ty from excl (pred fuel) m).
  - intros. by eapply leave_shrinks.
  - intros u m0 Hm0. apply leave_returns. lia.
  - lia.
Qed.

Lemma join_returns fuel now rid uid ws ptype organizer m :
  (S (size (participant_to_room m)) < fuel)%nat →
  is_Some (join_meeting_room alive fuel now rid uid ws ptype organizer m).
Proof.
  intros Hfuel. unfold join_meeting_room.
  assert (∃ room m0, (match meeting_rooms m !! rid with
                      | Some r => (r, m)
                      | None => create_meeting_room now rid 10 m
                      end) = (room, m0)
                     ∧ participant_to_room m0 = participant_to_room m)
    as (room & m0 & -> & Hmap).
  { destruct (meeting_rooms m !! rid) as [r|] eqn:Hr; [eauto |].
    destruct (create_meeting_room now rid 10 m) as [r0 m0] eqn:Hc.
    exists r0, m0. split; [done |].
    change m0 with (r0, m0).2. rewrite <- Hc. apply create_mapping. }
  destruct (add_participant _ room) as [[] room1]; [| eauto].
  match goal with |- context [_broadcast_to_room ?a ?l ?r ?t ?f ?e ?m1] =>
    destruct (broadcast_with_fuel_returns fuel now r t f e m1) as [[m2 ev2] Hb] end.
  - simpl. rewrite Hmap, map_size_insert.
    destruct (participant_to_room m !! uid); simpl; lia.
  - rewrite Hb.
    match goal with |- context [if ?c then _schedule_ai_auto_join _ _ else _] =>
      destruct (if c then _schedule_ai_auto_join rid m2 else (m2, [])) end.
    eauto.
Qed.

Lemma voice_returns fuel now uid a m :
  (size (participant_to_room m) < fuel)%nat →
  is_Some (handle_voice_activity alive fuel now uid a m).
Proof.
  intros Hfuel. unfold handle_voice_activity.
  destruct (participant_to_room m !! uid) as [rid|]; [| eauto].
  destruct (meeting_rooms m !! rid) as [room|]; [| eauto].
  by apply broadcast_with_fuel_returns.
Qed.

(** Every call of a run returns. *)
Lemma apply_op_returns m op : is_Some (apply_op alive m op).
Proof.
  destruct op as [now rid maxp | now rid uid ws ptype org | now uid | now uid a];
    unfold apply_op.
  - eauto.
  - destruct (join_returns (S (enough_fuel m)) now rid uid ws ptype org m)
      as [[[b m'] ev] ->]; [unfold enough_fuel; lia | simpl; eauto].
  - destruct (leave_returns alive (enough_fuel m) now uid m)
      as [[[b m'] ev] ->]; [unfold enough_fuel; lia | simpl; eauto].
  - destruct (voice_returns (enough_fuel m) now uid a m)
      as [[m' ev] ->]; [unfold enough_fuel; lia | simpl; eauto].
Qed.


End RunsReturn.

Section RunsAlive.

Variable alive : nat → bool.

Lemma join_creates fuel now rid uid ws ptype org m :
  meeting_rooms m !! rid = None →
  join_meeting_room alive fuel now rid uid ws ptype org m
  = join_meeting_room alive fuel now rid uid ws ptype org
      (create_meeting_room now rid 10 m).2.
Proof.
  intros Hr. unfold join_meeting_room, create_meeting_room. rewrite Hr. simpl.
  by rewrite lookup_insert_eq.
Qed.

(** A join into a registered room with a free place, when every transport
    of the room accepts the frame. *)
Lemma join_existing_quiet fuel now rid uid ws ptype org m room :
  meeting_rooms m !! rid = Some room →
  (participant_count room < max_participants room)%Z →
  disconnected_participants alive None (room_after_join now uid ws ptype org room) = [] →
  ∃ m' ev,
    join_meeting_room alive fuel now rid uid ws ptype org m = Some (true, m', ev)
    ∧ meeting_rooms m' = <[rid := room_after_join now uid ws ptype org room]> (meeting_rooms m)
    ∧ participant_to_room m' = <[uid := rid]> (participant_to_room m)
    ∧ Forall (join_event rid uid) ev.
Proof.
  intros Hroom Hfree Hquiet. unfold join_meeting_room. rewrite Hroom.
  unfold add_participant.
  destruct (Z.leb_spec (max_participants room) (participant_count room)); [lia |].
  unfold _broadcast_to_room. simpl. rewrite lookup_insert_eq.
  change (if bool_decide (ptype = AI)
          then set_ai_participant (Some (new_Participant now uid ws ptype org))
                 (set_participants (<[uid:=new_Participant now uid ws ptype org]>
                                      (participants room)) room)
          else set_participants (<[uid:=new_Participant now uid ws ptype org]>
                                   (participants room)) room)
    with (room_after_join now uid ws ptype org room).
  rewrite Hquiet. simpl. rewrite lookup_insert_eq.
  assert (Hsent : Forall (join_event rid uid)
            ((λ p, SendText (websocket p) "participant_joined" (Some uid))
               <$> broadcast_targets None (room_after_join now uid ws ptype org room))).
  { apply Forall_fmap, Forall_forall. intros p _. right; left. eauto. }
  destruct (bool_decide (ptype = HUMAN) && _ && _); simpl;
    eexists _, _; (split; [reflexivity |]); simpl; (split; [done |]); (split; [done |]).
  - constructor; [by left |]. rewrite app_nil_r. apply Forall_app. split; [done |].
    constructor; [| done]. right; right; done.
  - constructor; [by left |]. by rewrite !app_nil_r.
Qed.

Hypothesis every_send_succeeds : ∀ c, alive c = true.

Lemma send_ok_alive ws : send_ok alive ws = true.
Proof. destruct ws; simpl; auto. Qed.

Lemma nobody_disconnected excl (r : MeetingRoom) :
  disconnected_participants alive excl r = [].
Proof.
  unfold disconnected_participants.
  replace (List.filter _ (broadcast_targets excl r)) with (@nil Participant); [done |].
  symmetry. apply filter_nil_iff. intros p _. by rewrite send_ok_alive.
Qed.

(** With every transport accepting its frame a broadcast changes nothing. *)
Lemma broadcast_alive leave rid ty from excl m :
  ∃ ev, _broadcast_to_room alive leave rid ty from excl m = Some (m, ev).
Proof.
  unfold _broadcast_to_room. destruct (meeting_rooms m !! rid) as [r|]; [| eauto].
  rewrite nobody_disconnected. simpl. eauto.
Qed.







End RunsAlive.





(** ** Joining again under an id that is already in the room *)




(** ** When an empty room is dropped *)

Lemma should_cleanup_spec now (r : MeetingRoom) :
  should_cleanup now r = true
  ↔ participants r = ∅ ∧ (minutes 5 < now - created_at r)%Z.
Proof.
  unfold should_cleanup, is_empty.
  destruct (bool_decide (size (participants r) = 0)) eqn:He.
  - apply bool_decide_eq_true in He. apply map_size_empty_iff in He.
    rewrite bool_decide_eq_true. tauto.
  - apply bool_decide_eq_false in He. rewrite map_size_empty_iff in He.
    split; [done | tauto].
Qed.

(** C7, the code at work. [should_cleanup] measures the five minutes from
    the creation of the room, and it is only asked when a participant
    leaves. A room created ten minutes ago is dropped at the very instant
    its last participant leaves; a room whose last participant leaves one
    minute after its creation stays registered, empty, and no later leave of
    that participant drops it. *)
Theorem cleanup_measured_from_creation :
  (∀ now r, should_cleanup now r = true
            ↔ participants r = ∅ ∧ (minutes 5 < now - created_at r)%Z)
  ∧ (∃ m, run all_alive ops_leave_after_ten_minutes new_manager = Some m
          ∧ meeting_rooms m !! "R1" = None)
  ∧ (run all_alive ops_leave_after_one_minute new_manager = Some manager_left_early
     ∧ (∃ r, meeting_rooms manager_left_early !! "R1" = Some r ∧ participants r = ∅)
     ∧ ∀ alive fuel now, (0 < fuel)%nat →
         leave_meeting_room alive fuel now "U1" manager_left_early
         = Some (false, manager_left_early, [])).
Proof.
  split; [apply should_cleanup_spec |]. split.
  - eexists. split; [vm_compute; reflexivity | reflexivity].
  - split; [vm_compute; reflexivity |]. split.
    + eexists. split; [vm_compute; reflexivity | reflexivity].
    + intros alive fuel now Hfuel. apply leave_no_room; [done |].
      left. reflexivity.
Qed.

(** * Properties of the conversation flow *)

Import orchestrator.
Import dialogues.

Lemma gemini_questions_nonempty reply : gemini_generate_questions_for_lead reply ≠ [].
Proof. by destruct reply as [[|q qs]|]. Qed.

(** The question service never hands out an empty list. *)
Lemma generate_questions_nonempty set_questions reply :
  generate_questions_for_lead set_questions reply ≠ [].
Proof.
  destruct set_questions; simpl; [apply gemini_questions_nonempty | done].
Qed.

Section Exchanges.

Variable generate_next_question :
  list Message → list string → option (gmap string string) → string.

Lemma respond_in_progress n f r :
  (n < 6)%nat → in_progress n f → in_progress (S n) (respond generate_next_question f r).
Proof.
  intros Hn (Hst & Hlen & Hidx & Hmax).
  unfold respond, process_user_response.
  cbn [_save_conversation_message].
  destruct (conversation_complete _) eqn:Hc.
  - unfold conversation_complete in Hc. cbn in Hc.
    rewrite Hmax, length_app, Hlen in Hc. apply Z.leb_le in Hc. simpl in Hc. lia.
  - unfold _generate_next_question, in_progress. cbn.
    rewrite !length_app, Hlen, Hidx, Hmax. cbn [length].
    repeat split; lia.
Qed.

Lemma process_all_in_progress rs :
  ∀ n f, (n + length rs ≤ 6)%nat → in_progress n f →
         in_progress (n + length rs) (process_all generate_next_question rs f).
Proof.
  induction rs as [|r rs IH]; intros n f Hn Hf; simpl in *.
  - by rewrite Nat.add_0_r.
  - replace (n + S (length rs)) with (S n + length rs) by lia.
    apply IH; [lia |]. apply respond_in_progress; [lia | done].
Qed.

End Exchanges.

(** The opening embeds the first planned question, and the reply to the
    first answer is the second one. *)
Example opening_then_second_question :
  ∃ f1 eff1,
    start_conversation 0%Z
      (initialize lead_acme planned_questions None (new_ConversationFlow 0%Z "M1" "R1"))
    = Returned "Hello! I'm an AI assistant here to learn more about Acme. Q1" f1 eff1
    ∧ (process_user_response follow_up 10%Z "answer 1" "U1" f1).1.1 = "Q2".
Proof. eexists _, _. split; reflexivity. Qed.

(** C1. A conversation is created with a maximum of seven questions and
    initialized; [start_conversation] appends the opening message; answers
    are then processed one at a time. After each of the first six answers
    the flow is speaking its next question, the history holds one entry more
    than twice the number of answers, and the question index equals that
    number. The seventh answer brings the history to fourteen entries: that
    call returns the closing message, leaves the flow [COMPLETED], appends
    the answer and the closing message only, and does not advance the
    question index. *)
Theorem seven_exchanges_complete
    (generate_next_question : list Message → list string → option (gmap string string) → string)
    now0 mid rid ld set_questions reply t0 (rs : list Response) (last : Response) :
  length rs = 6 →
  ∃ opening f1 eff1,
    start_conversation t0
      (initialize ld set_questions reply (new_ConversationFlow now0 mid rid))
    = Returned opening f1 eff1
    ∧ length (conversation_history f1) = 1
    ∧ (∀ k, (k ≤ 6)%nat →
         in_progress k (process_all generate_next_question (take k rs) f1))
    ∧ let f6 := process_all generate_next_question rs f1 in
      let out := process_user_response generate_next_question last.1.1 last.1.2 last.2 f6 in
      length (conversation_history f6) + 1 = 14
      ∧ out.1.1 = completion_message
      ∧ state out.1.2 = COMPLETED
      ∧ current_question_index out.1.2 = current_question_index f6
      ∧ conversation_history out.1.2
        = conversation_history f6
            ++ [ {| speaker := "human"; message := last.1.2;
                    timestamp := last.1.1; speaker_id := Some last.2 |};
                 {| speaker := "ai"; message := completion_message;
                    timestamp := (last.1.1 + ai_response_delay f6)%Z;
                    speaker_id := None |} ].
Proof.
  intros Hrs.
  unfold start_conversation, initialize. cbn [questions set_lead_and_questions].
  destruct (generate_questions_for_lead set_questions reply) as [|q0 qs] eqn:Hq.
  { by apply generate_questions_nonempty in Hq. }
  cbn. eexists _, _, _. split; [reflexivity |]. split; [reflexivity |].
  match goal with |- context [process_all _ rs ?f] => set (f1 := f) end.
  assert (H0 : in_progress 0 f1) by by repeat split.
  split.
  - intros k Hk.
    replace k with (0 + length (take k rs))%nat at 1 by (rewrite length_take; lia).
    apply process_all_in_progress; [rewrite length_take; lia | done].
  - assert (H6 : in_progress 6 (process_all generate_next_question rs f1)).
    { replace 6 with (0 + length rs)%nat at 1 by lia.
      apply process_all_in_progress; [lia | done]. }
    destruct H6 as (Hst & Hlen & Hidx & Hmax).
    unfold process_user_response. cbn [_save_conversation_message].
    assert (Hc : conversation_complete
              (set_last_activity last.1.1
                 (set_history
                    (conversation_history (process_all generate_next_question rs f1)
                     ++ [{| speaker := "human"; message := last.1.2;
                            timestamp := last.1.1; speaker_id := Some last.2 |}])
                    (process_all generate_next_question rs f1))) = true).
    { unfold conversation_complete. cbn.
      rewrite Hmax, length_app, Hlen. reflexivity. }
    rewrite Hc. cbn. rewrite Hlen. repeat split; try reflexivity.
    by rewrite <- app_assoc.
Qed.

Lemma seven_exchanges_complete_witness :
  length six_answers = 6
  ∧ ∃ opening f1 eff1,
      start_conversation 0%Z
        (initialize lead_acme [] None (new_ConversationFlow 0%Z "M1" "R1"))
      = Returned opening f1 eff1
      ∧ state (process_user_response follow_up 70%Z "answer 7" "U1"
                 (process_all follow_up six_answers f1)).1.2 = COMPLETED.
Proof.
  split; [reflexivity |].
  destruct (seven_exchanges_complete follow_up 0%Z "M1" "R1" lead_acme [] None 0%Z
              six_answers (70%Z, "answer 7", "U1") eq_refl)
    as (opening & f1 & eff1 & Hstart & _ & _ & Hlast).
  exists opening, f1, eff1. split; [exact Hstart |]. apply Hlast.
Defined.

(** ** Silence prompts *)

(** C6, as amended. [should_prompt_user] is true exactly when the flow is
    waiting for a response and more than the silence timeout has passed
    since the last activity; in every other state it is false. For a flow
    that has been waiting since [t0] with the timeout of five seconds it is
    true at [t0] plus 5.1 seconds. Emitting the prompt appends it to the
    history and touches neither the state nor the last activity, so that
    [should_prompt_user] stays true at every later instant. *)
Theorem should_prompt_user_spec now (f : ConversationFlow) :
  (should_prompt_user now f = true
   ↔ state f = WAITING_FOR_RESPONSE ∧ (silence_timeout f < now - last_activity f)%Z)
  ∧ (state f ≠ WAITING_FOR_RESPONSE → should_prompt_user now f = false)
  ∧ (∀ t0 : datetime,
       should_prompt_user (t0 + milliseconds 5100)%Z (flow_waiting_since t0) = true)
  ∧ (should_prompt_user now f = true →
     (handle_silence_timeout now f).1.1 = Some prompt_message
     ∧ state (after_silence_check now f) = state f
     ∧ last_activity (after_silence_check now f) = last_activity f
     ∧ conversation_history (after_silence_check now f)
       = conversation_history f
           ++ [ {| speaker := "ai"; message := prompt_message;
                   timestamp := now; speaker_id := None |} ]
     ∧ ∀ later, (now ≤ later)%Z →
                should_prompt_user later (after_silence_check now f) = true).
Proof.
  assert (Hiff : ∀ t g, should_prompt_user t g = true
                        ↔ state g = WAITING_FOR_RESPONSE
                          ∧ (silence_timeout g < t - last_activity g)%Z).
  { intros t g. unfold should_prompt_user. case_bool_decide as Hst.
    - rewrite bool_decide_eq_true. tauto.
    - split; [done | tauto]. }
  split; [apply Hiff |]. split.
  { intros Hst. unfold should_prompt_user. by rewrite bool_decide_eq_false_2. }
  split.
  { intros t0. apply Hiff. split; [done |]. cbn. unfold seconds, milliseconds. lia. }
  intros Hp. unfold after_silence_check, handle_silence_timeout. rewrite Hp. cbn.
  repeat split.
  intros later Hlater. apply Hiff. apply Hiff in Hp as [Hst Ht]. cbn. split; [done | lia].
Qed.

(** C6 as stated fails: a flow has been waiting since instant 0; at 5.1
    seconds the prompt is due and is emitted, and [should_prompt_user] is
    still true right after it. *)
Lemma prompt_does_not_reset :
  ¬ prompt_resets_silence (milliseconds 5100) (flow_waiting_since 0%Z).
Proof.
  intros H.
  assert (Hdue : should_prompt_user (milliseconds 5100) (flow_waiting_since 0%Z) = true)
    by reflexivity.
  apply H in Hdue. vm_compute in Hdue. discriminate Hdue.
Qed.

(** ** The scheduled join *)

(** With enough turns the wait returns: here nobody comes, and it gives up
    after ten minutes. *)
Lemma wait_gives_up :
  _wait_for_participants nobody_there "R1" 10 0%Z = Some (false, minutes 10).
Proof. vm_compute. reflexivity. Qed.

(** C5, the code at work. No human ever enters room [R1]. The wait ends
    after ten minutes with [False] and a warning; the join goes on all the
    same: it returns [True], the conversation of the meeting is registered
    and started, and the agent is a participant of the room, where its
    arrival has been broadcast. *)
Theorem auto_join_proceeds_without_humans :
  _wait_for_participants nobody_there "R1" 10 0%Z = Some (false, minutes 10)
  ∧ ∃ o m eff flow room agent,
      auto_join_nobody_there = Some (true, o, m, eff)
      ∧ active_conversations o !! "M1" = Some flow
      ∧ state flow = AI_SPEAKING
      ∧ length (conversation_history flow) = 1
      ∧ meeting_rooms m !! "R1" = Some room
      ∧ participants room !! "ai-assistant" = Some agent
      ∧ participant_type agent = AI
      ∧ LogWarning "No human participants found" ∈ eff
      ∧ RoomEvent (SendText (AIWebSocketMock "M1") "participant_joined"
                     (Some "ai-assistant")) ∈ eff.
Proof.
  split; [apply wait_gives_up |].
  eexists _, _, _, _, _, _.
  split; [vm_compute; reflexivity |].
  split; [vm_compute; reflexivity |].
  split; [reflexivity |]. split; [reflexivity |].
  split; [vm_compute; reflexivity |].
  split; [vm_compute; reflexivity |].
  split; [reflexivity |].
  split; repeat first [apply list_elem_of_here | apply list_elem_of_further].
Qed.

(** * Further properties of the session manager *)

Import upkeep.
Import lifecycle.
Import endpoint.

(** ** A leave only takes away *)

Lemma room_le_refl (r : MeetingRoom) : room_le r r.
Proof. by repeat split. Qed.

Lemma manager_le_refl m : manager_le m m.
Proof.
  split; [| split]; [| done | done].
  intros rid r Hr. exists r. split; [done | apply room_le_refl].
Qed.

Lemma room_le_trans (r1 r2 r3 : MeetingRoom) : room_le r1 r2 → room_le r2 r3 → room_le r1 r3.
Proof.
  intros (Hp1 & ? & ? & ? & ? & ? & ?) (Hp2 & ? & ? & ? & ? & ? & ?).
  repeat split; try congruence. auto.
Qed.

Lemma manager_le_trans m1 m2 m3 : manager_le m1 m2 → manager_le m2 m3 → manager_le m1 m3.
Proof.
  intros (Hr1 & Hm1 & Ht1) (Hr2 & Hm2 & Ht2). split; [| split].
  - intros rid r1 H1. destruct (Hr1 rid r1 H1) as (r2 & H2 & Hle1).
    destruct (Hr2 rid r2 H2) as (r3 & H3 & Hle2).
    exists r3. split; [done |]. by eapply room_le_trans.
  - auto.
  - set_solver.
Qed.

Lemma shrink_step_le m m' : shrink_step m m' → manager_le m' m.
Proof.
  destruct 1 as [m uid rid room Hmap Hroom Hp | m rid r Hr He].
  - split; [| split].
    + intros rid' r' Hr'. simpl in Hr'.
      destruct (decide (rid' = rid)) as [->|Hne].
      * rewrite lookup_insert_eq in Hr'. simplify_eq. exists room. split; [done |].
        repeat split. intros u p Hu. simpl in Hu.
        by apply lookup_delete_Some in Hu as [_ Hu].
      * rewrite lookup_insert_ne in Hr' by done. exists r'. split; [done | apply room_le_refl].
    + intros u rid' Hu. simpl in Hu. by apply lookup_delete_Some in Hu as [_ Hu].
    + done.
  - split; [| split].
    + intros rid' r' Hr'. rewrite cleanup_rooms in Hr'.
      apply lookup_delete_Some in Hr' as [_ Hr'].
      exists r'. split; [done | apply room_le_refl].
    + intros u rid'. by rewrite cleanup_mapping.
    + unfold _cleanup_room. destruct (bool_decide _); simpl; [| done].
      by apply subseteq_difference_l.
Qed.

Lemma shrinks_le m m' : rtc shrink_step m m' → manager_le m' m.
Proof.
  induction 1 as [m | m m1 m2 Hstep _ IH]; [apply manager_le_refl |].
  eapply manager_le_trans; [exact IH | by apply shrink_step_le].
Qed.

(** X1. Whatever the transports do, a leave (with the leaves it triggers for
    participants whose transport failed) only takes away: every room still
    registered was registered before, holds a subset of the participants it
    held, with all its other fields untouched; every mapping entry was
    there before; no task is added. *)
Theorem leave_only_takes_away alive fuel now uid m b m' ev :
  leave_meeting_room alive fuel now uid m = Some (b, m', ev) →
  manager_le m' m.
Proof. intros H. eapply shrinks_le, leave_shrinks, H. Qed.

Lemma leave_only_takes_away_witness :
  ∃ m', leave_meeting_room all_alive 3 10%Z "U1" manager_R1_full
        = Some (true, m', [DbParticipantLeft "R1" "U1";
                           SendText (Connection 2) "participant_left" (Some "U1")])
        ∧ manager_le m' manager_R1_full.
Proof.
  eexists. split; [vm_compute; reflexivity |].
  eapply (leave_only_takes_away all_alive 3 10%Z "U1" manager_R1_full).
  vm_compute. reflexivity.
Defined.

(** ** What a join and a voice-activity call are made of *)

Lemma create_lookup now rid maxp m :
  meeting_rooms (create_meeting_room now rid maxp m).2 !! rid
  = Some (create_meeting_room now rid maxp m).1.
Proof.
  unfold create_meeting_room. destruct (meeting_rooms m !! rid) eqn:Hr; simpl; [done |].
  apply lookup_insert_eq.
Qed.

Lemma join_prepares alive fuel now rid uid ws ptype org m :
  join_meeting_room alive fuel now rid uid ws ptype org m
  = join_meeting_room alive fuel now rid uid ws ptype org
      (create_meeting_room now rid 10 m).2.
Proof.
  destruct (meeting_rooms m !! rid) as [r|] eqn:Hr.
  - unfold create_meeting_room. by rewrite Hr.
  - by apply join_creates.
Qed.

(** A join on a registered room: either the room is full and nothing
    happens, or the participant is registered and from there on the manager
    only shrinks, up to the set of tasks. *)
Lemma join_registered_decompose alive fuel now rid uid ws ptype org m room b m' ev :
  meeting_rooms m !! rid = Some room →
  join_meeting_room alive fuel now rid uid ws ptype org m = Some (b, m', ev) →
  (b = false ∧ m' = m ∧ ev = [] ∧ (max_participants room ≤ participant_count room)%Z)
  ∨ (b = true ∧ (participant_count room < max_participants room)%Z
     ∧ ∃ m2 ts, rtc shrink_step (registered now rid uid ws ptype org room m) m2
                ∧ m' = set_tasks ts m2).
Proof.
  intros Hroom. unfold join_meeting_room. rewrite Hroom. unfold add_participant.
  destruct (Z.leb_spec (max_participants room) (participant_count room)) as [Hfull|Hfree].
  { intros; simplify_eq. by left. }
  change (set_mapping (<[uid:=rid]> (participant_to_room m))
            (set_rooms
               (<[rid:=if bool_decide (ptype = AI)
                       then set_ai_participant (Some (new_Participant now uid ws ptype org))
                              (set_participants
                                 (<[user_id (new_Participant now uid ws ptype org)
                                    :=new_Participant now uid ws ptype org]>
                                    (participants room)) room)
                       else set_participants
                              (<[user_id (new_Participant now uid ws ptype org)
                                 :=new_Participant now uid ws ptype org]>
                                 (participants room)) room]> (meeting_rooms m)) m))
    with (registered now rid uid ws ptype org room m).
  destruct (_broadcast_to_room _ _ _ _ _ _ _) as [[m2 ev2]|] eqn:Hb; [| done].
  apply broadcast_shrinks in Hb; [| intros; by eapply leave_shrinks].
  intros H. right.
  match type of H with context [if ?c then _ else _] => destruct c end;
    simpl in H; simplify_eq; (split; [done |]); (split; [done |]).
  - eexists _, _. split; [exact Hb | reflexivity].
  - exists m', (ai_auto_join_tasks m'). split; [done |]. by destruct m'.
Qed.

Lemma voice_decompose alive fuel now uid a m m' ev :
  handle_voice_activity alive fuel now uid a m = Some (m', ev) →
  (m' = m ∧ ev = []
   ∧ (participant_to_room m !! uid = None
      ∨ ∃ rid, participant_to_room m !! uid = Some rid ∧ meeting_rooms m !! rid = None))
  ∨ (∃ rid room, participant_to_room m !! uid = Some rid
                 ∧ meeting_rooms m !! rid = Some room
                 ∧ rtc shrink_step (voiced now rid uid a room m) m').
Proof.
  unfold handle_voice_activity.
  destruct (participant_to_room m !! uid) as [rid|] eqn:Hmap;
    [| intros; simplify_eq; left; eauto].
  destruct (meeting_rooms m !! rid) as [room|] eqn:Hroom;
    [| intros; simplify_eq; left; eauto 10].
  intros Hb. apply broadcast_shrinks in Hb; [| intros; by eapply leave_shrinks].
  right. eauto.
Qed.

Section Preservation.

Variable alive : nat → bool.
Variable P : EnhancedSessionManager → Prop.

Hypothesis P_tasks : ∀ m ts, P m → P (set_tasks ts m).
Hypothesis P_create : ∀ now rid maxp m,
  (0 ≤ maxp)%Z → meeting_rooms m !! rid = None →
  P m → P (set_rooms (<[rid := new_MeetingRoom now rid maxp]> (meeting_rooms m)) m).
Hypothesis P_register : ∀ now rid uid ws ptype org room m,
  meeting_rooms m !! rid = Some room →
  (participant_count room < max_participants room)%Z →
  P m → P (registered now rid uid ws ptype org room m).
Hypothesis P_voice : ∀ now rid uid a room m,
  participant_to_room m !! uid = Some rid → meeting_rooms m !! rid = Some room →
  P m → P (voiced now rid uid a room m).
Hypothesis P_shrink : ∀ m m', shrink_step m m' → P m → P m'.

Lemma shrinks_preserve m m' : rtc shrink_step m m' → P m → P m'.
Proof. induction 1; eauto. Qed.

Lemma create_preserves now rid maxp m :
  (0 ≤ maxp)%Z → P m → P (create_meeting_room now rid maxp m).2.
Proof.
  intros Hmax Hm. unfold create_meeting_room.
  destruct (meeting_rooms m !! rid) eqn:Hr; simpl; [done | by apply P_create].
Qed.

Lemma apply_op_preserves m op m' :
  op_ok op → apply_op alive m op = Some m' → P m → P m'.
Proof.
  destruct op as [now rid maxp | now rid uid ws ptype org | now uid | now uid a];
    unfold apply_op; intros Hok H Hm.
  - simplify_eq. by apply create_preserves.
  - destruct (join_meeting_room _ _ _ _ _ _ _ _ _) as [[[b m1] ev]|] eqn:Hj;
      simpl in H; simplify_eq.
    rewrite join_prepares in Hj.
    eapply join_registered_decompose in Hj; [| apply create_lookup].
    assert (P (create_meeting_room now rid 10 m).2) by (apply create_preserves; [lia | done]).
    destruct Hj as [(_ & -> & _) | (_ & Hfree & m2 & ts & Hsh & ->)]; [done |].
    apply P_tasks. eapply shrinks_preserve; [exact Hsh |].
    apply P_register; [apply create_lookup | done | done].
  - destruct (leave_meeting_room _ _ _ _ _) as [[[b m1] ev]|] eqn:Hl;
      simpl in H; simplify_eq.
    eapply shrinks_preserve; [by eapply leave_shrinks | done].
  - destruct (handle_voice_activity _ _ _ _ _ _) as [[m1 ev]|] eqn:Hv;
      simpl in H; simplify_eq.
    apply voice_decompose in Hv as [(-> & _) | (rid & room & Hmap & Hroom & Hsh)]; [done |].
    eapply shrinks_preserve; [exact Hsh |]. by apply P_voice.
Qed.

Lemma run_preserves ops :
  ∀ m m', Forall op_ok ops → run alive ops m = Some m' → P m → P m'.
Proof.
  induction ops as [|op ops IH]; intros m m' Hok H Hm; simpl in H.
  - by simplify_eq.
  - inversion Hok; subst.
    destruct (apply_op alive m op) as [m1|] eqn:H1; simpl in H; [| done].
    eapply IH; [done | exact H |]. by eapply apply_op_preserves.
Qed.

End Preservation.

(** ** The mapping and the rooms agree *)

Lemma room_after_join_participants now uid ws ptype org (room : MeetingRoom) :
  participants (room_after_join now uid ws ptype org room)
  = <[uid := new_Participant now uid ws ptype org]> (participants room).
Proof. unfold room_after_join. by destruct (bool_decide _). Qed.

Lemma set_voice_activity_lookup now uid a (r : MeetingRoom) v :
  participants (set_voice_activity now uid a r) !! v
  = if bool_decide (v = uid)
    then set_flags a now <$> participants r !! v
    else participants r !! v.
Proof.
  unfold set_voice_activity.
  destruct (participants r !! uid) as [p|] eqn:Hp.
  - assert (Hins : (<[uid := set_flags a now p]> (participants r)) !! v
                   = if bool_decide (v = uid)
                     then set_flags a now <$> participants r !! v
                     else participants r !! v).
    { case_bool_decide as Hv.
      - subst. by rewrite lookup_insert_eq, Hp.
      - by rewrite lookup_insert_ne. }
    destruct a; [done |]. by destruct (active_speakers _).
  - case_bool_decide as Hv; [| done]. subst. by rewrite Hp.
Qed.

Lemma empty_room_lookup (r : MeetingRoom) u : is_empty r = true → participants r !! u = None.
Proof.
  unfold is_empty. intros He%bool_decide_eq_true%map_size_empty_iff.
  by rewrite He, lookup_empty.
Qed.

Lemma mapping_consistent_run alive ops m m' :
  Forall op_ok ops → run alive ops m = Some m' →
  mapping_consistent m → mapping_consistent m'.
Proof.
  apply (run_preserves alive mapping_consistent).
  - intros m0 ts Hm. exact Hm.
  - intros now rid maxp m0 _ Hnone Hm u rid' Hu. simpl in *.
    destruct (Hm u rid' Hu) as (room & Hroom & Hin). exists room. split; [| done].
    rewrite lookup_insert_ne; [done |]. intros ->. congruence.
  - intros now rid uid ws ptype org room m0 Hroom _ Hm u rid' Hu. simpl in *.
    destruct (decide (u = uid)) as [->|Hne].
    + rewrite lookup_insert_eq in Hu. simplify_eq.
      eexists. rewrite lookup_insert_eq. split; [done |].
      rewrite room_after_join_participants, lookup_insert_eq. eauto.
    + rewrite lookup_insert_ne in Hu by done.
      destruct (Hm u rid' Hu) as (room' & Hroom' & Hin).
      destruct (decide (rid' = rid)) as [->|Hrid].
      * eexists. rewrite lookup_insert_eq. split; [done |]. simplify_eq.
        by rewrite room_after_join_participants, lookup_insert_ne.
      * exists room'. by rewrite lookup_insert_ne.
  - intros now rid uid a room m0 Hmap Hroom Hm u rid' Hu. simpl in *.
    destruct (Hm u rid' Hu) as (room' & Hroom' & Hin).
    destruct (decide (rid' = rid)) as [->|Hrid].
    + eexists. rewrite lookup_insert_eq. split; [done |]. simplify_eq.
      rewrite set_voice_activity_lookup. case_bool_decide; [| done].
      destruct Hin as [p ->]. simpl. eauto.
    + exists room'. by rewrite lookup_insert_ne.
  - intros m0 m1 Hstep Hm.
    destruct Hstep as [m0 uid rid room Hmap Hroom Hp | m0 rid r Hr He]; intros u rid' Hu.
    + simpl in *. apply lookup_delete_Some in Hu as [Hne Hu].
      destruct (Hm u rid' Hu) as (room' & Hroom' & Hin).
      destruct (decide (rid' = rid)) as [->|Hrid].
      * eexists. rewrite lookup_insert_eq. split; [done |]. simplify_eq. simpl.
        by rewrite lookup_delete_ne.
      * exists room'. by rewrite lookup_insert_ne.
    + rewrite cleanup_mapping in Hu. rewrite cleanup_rooms.
      destruct (Hm u rid' Hu) as (room' & Hroom' & Hin).
      exists room'. split; [| done]. rewrite lookup_delete_ne; [done |].
      intros ->. simplify_eq. rewrite (empty_room_lookup _ u He) in Hin.
      by destruct Hin.
Qed.

Lemma keys_are_ids_run alive ops m m' :
  Forall op_ok ops → run alive ops m = Some m' → keys_are_ids m → keys_are_ids m'.
Proof.
  apply (run_preserves alive keys_are_ids).
  - intros m0 ts Hm. exact Hm.
  - intros now rid maxp m0 _ Hnone Hm rid' room k p Hr Hk. simpl in *.
    destruct (decide (rid' = rid)) as [->|Hrid].
    + rewrite lookup_insert_eq in Hr. by simplify_eq.
    + rewrite lookup_insert_ne in Hr by done. eauto.
  - intros now rid uid ws ptype org room m0 Hroom _ Hm rid' room' k p Hr Hk. simpl in *.
    destruct (decide (rid' = rid)) as [->|Hrid].
    + rewrite lookup_insert_eq in Hr. simplify_eq.
      rewrite room_after_join_participants in Hk.
      destruct (decide (k = uid)) as [->|Hne].
      * rewrite lookup_insert_eq in Hk. by simplify_eq.
      * rewrite lookup_insert_ne in Hk by done. eauto.
    + rewrite lookup_insert_ne in Hr by done. eauto.
  - intros now rid uid a room m0 Hmap Hroom Hm rid' room' k p Hr Hk. simpl in *.
    destruct (decide (rid' = rid)) as [->|Hrid].
    + rewrite lookup_insert_eq in Hr. simplify_eq.
      rewrite set_voice_activity_lookup in Hk. case_bool_decide; [| eauto].
      destruct (participants room !! k) as [q|] eqn:Hq; simpl in Hk; simplify_eq.
      simpl. eauto.
    + rewrite lookup_insert_ne in Hr by done. eauto.
  - intros m0 m1 Hstep Hm rid' room' k p Hr Hk.
    apply shrink_step_le in Hstep as (Hrooms & _).
    destruct (Hrooms rid' room' Hr) as (r0 & Hr0 & Hle & _). eauto.
Qed.

Lemma new_manager_consistent : mapping_consistent new_manager ∧ keys_are_ids new_manager.
Proof.
  split.
  - intros u rid Hu. simpl in Hu. by rewrite lookup_empty in Hu.
  - intros rid room k p Hr. simpl in Hr. by rewrite lookup_empty in Hr.
Qed.

Lemma leave_unseats alive fuel now uid m b m' ev :
  leave_meeting_room alive fuel now uid m = Some (b, m', ev) →
  (b = true ↔ seated m uid) ∧ ¬ seated m' uid.
Proof.
  intros H. pose proof (leave_outcome _ _ _ _ _ _ _ _ H) as Hout.
  destruct b.
  - split.
    + split; [intros _ | done].
      destruct fuel as [|fuel]; [done |]. simpl in H.
      destruct (participant_to_room m !! uid) as [rid|] eqn:Hmap; [| by simplify_eq].
      destruct (meeting_rooms m !! rid) as [room|] eqn:Hroom; [| by simplify_eq].
      unfold remove_participant in H.
      destruct (participants room !! uid) as [p|] eqn:Hp; [| by simplify_eq].
      exists rid, room. eauto.
    + intros (rid & room & Hmap & _). congruence.
  - destruct Hout as (-> & _ & Hcase).
    assert (Hns : ¬ seated m uid).
    { intros (rid & room & Hmap & Hroom & [p Hp]).
      destruct Hcase as [Hn | [(rid' & H1 & H2) | (rid' & room' & H1 & H2 & H3)]];
        simplify_eq. }
    split; [| done]. split; [done | intros Hs; by destruct Hns].
Qed.

(** X2. In every state the manager reaches from its initial state by
    create-room, join, leave and voice-activity calls, whatever the
    transports do, each entry of the participant-to-room mapping names a
    registered room that holds the participant. A leave therefore returns
    [True] exactly for the participants that are in the mapping: the stale
    entries that make it return [False] never arise. *)
Theorem leave_succeeds_iff_mapped alive ops m :
  Forall op_ok ops → run alive ops new_manager = Some m →
  mapping_consistent m
  ∧ ∀ alive' now uid,
      ∃ b m' ev,
        leave_meeting_room alive' (enough_fuel m) now uid m = Some (b, m', ev)
        ∧ (b = true ↔ is_Some (participant_to_room m !! uid)).
Proof.
  intros Hok Hrun.
  assert (Hcons : mapping_consistent m).
  { eapply mapping_consistent_run; [exact Hok | exact Hrun | apply new_manager_consistent]. }
  split; [done |]. intros alive' now uid.
  destruct (leave_returns alive' (enough_fuel m) now uid m) as [[[b m'] ev] H].
  { unfold enough_fuel. lia. }
  exists b, m', ev. split; [done |].
  apply leave_unseats in H as [-> _]. split.
  - intros (rid & room & Hmap & _). eauto.
  - intros [rid Hmap]. destruct (Hcons uid rid Hmap) as (room & Hroom & Hin).
    exists rid, room. eauto.
Qed.

Lemma leave_succeeds_iff_mapped_witness :
  Forall op_ok ops_fill_R1
  ∧ mapping_consistent manager_R1_full.
Proof.
  assert (H : Forall op_ok ops_fill_R1) by (repeat constructor; simpl; lia).
  split; [exact H |].
  refine (proj1 (leave_succeeds_iff_mapped all_alive ops_fill_R1 manager_R1_full H _)).
  vm_compute. reflexivity.
Defined.

(** ** Failed transports *)

Lemma seated_le m m' uid : manager_le m' m → seated m' uid → seated m uid.
Proof.
  intros (Hrooms & Hmap & _) (rid & room' & Hu & Hr & [p Hp]).
  destruct (Hrooms rid room' Hr) as (room & Hroom & Hle & _).
  exists rid, room. split; [by apply Hmap |]. split; [done |].
  exists p. by apply Hle.
Qed.

Lemma leave_each_unseats alive fuel now uids :
  ∀ m m' ev,
    leave_each (leave_meeting_room alive fuel now) uids m = Some (m', ev) →
    ∀ v, v ∈ uids → ¬ seated m' v.
Proof.
  induction uids as [|u us IH]; intros m m' ev H v Hv; [by inversion Hv |].
  simpl in H.
  destruct (leave_meeting_room alive fuel now u m) as [[[b m1] ev1]|] eqn:H1; [| done].
  destruct (leave_each _ us m1) as [[m2 ev2]|] eqn:H2; [| done]. simplify_eq.
  inversion Hv; subst.
  - apply leave_unseats in H1 as [_ Hns]. intros Hs. apply Hns.
    eapply seated_le; [| exact Hs].
    eapply shrinks_le, leave_each_shrinks; [| exact H2].
    intros. by eapply leave_shrinks.
  - by eapply IH.
Qed.

(** X3. A broadcast treats a failed send as a disconnect. With enough fuel
    it returns; it only takes away; and afterwards every participant that is
    still in the room and still mapped to it either has a transport that
    accepted the frame or was the excluded sender. *)
Theorem broadcast_drops_failed alive fuel now rid ty from excl m :
  keys_are_ids m →
  (size (participant_to_room m) < fuel)%nat →
  ∃ m' ev,
    broadcast_to_room alive fuel now rid ty from excl m = Some (m', ev)
    ∧ manager_le m' m
    ∧ ∀ room' u p,
        meeting_rooms m' !! rid = Some room' →
        participants room' !! u = Some p →
        participant_to_room m' !! u = Some rid →
        send_ok alive (websocket p) = true ∨ excluded excl p = true.
Proof.
  intros Hkeys Hfuel. unfold broadcast_to_room.
  destruct (broadcast_with_fuel_returns alive fuel now rid ty from excl m Hfuel)
    as [[m' ev] Hb].
  exists m', ev. split; [done |].
  assert (Hle : manager_le m' m).
  { eapply shrinks_le, broadcast_shrinks; [| exact Hb]. intros. by eapply leave_shrinks. }
  split; [done |].
  intros room' u p Hroom' Hp Hmap.
  unfold _broadcast_to_room in Hb.
  destruct (proj1 Hle rid room' Hroom') as (room & Hroom & Hsub & _).
  rewrite Hroom in Hb.
  destruct (leave_each _ _ m) as [[m2 ev2]|] eqn:Heach; [| done]. simplify_eq.
  destruct (excluded excl p) eqn:Hex; [by right |]. left.
  destruct (send_ok alive (websocket p)) eqn:Hsend; [done |]. exfalso.
  eapply (leave_each_unseats _ _ _ _ _ _ _ Heach u).
  - unfold disconnected_participants. apply list_elem_of_fmap. exists p.
    split; [symmetry; by eapply Hkeys, Hsub |].
    apply list_elem_of_In, filter_In. split; [| by rewrite Hsend].
    unfold broadcast_targets. apply filter_In. split; [| by rewrite Hex].
    apply list_elem_of_In, participant_values_elem. eauto.
  - exists rid, room'. eauto.
Qed.

Lemma broadcast_drops_failed_witness :
  ∃ m' ev,
    broadcast_to_room (λ c, bool_decide (c = 2)) 3 9%Z "R1" "offer" (Some "U2") (Some "U2")
      manager_R1_full = Some (m', ev)
    ∧ manager_le m' manager_R1_full
    ∧ ∀ room' u p,
        meeting_rooms m' !! "R1" = Some room' →
        participants room' !! u = Some p →
        participant_to_room m' !! u = Some "R1" →
        send_ok (λ c, bool_decide (c = 2)) (websocket p) = true
        ∨ excluded (Some "U2") p = true.
Proof.
  apply (broadcast_drops_failed (λ c, bool_decide (c = 2)) 3 9%Z "R1" "offer"
           (Some "U2") (Some "U2") manager_R1_full).
  - eapply (keys_are_ids_run all_alive ops_fill_R1 new_manager);
      [repeat constructor; simpl; lia | vm_compute; reflexivity
      | apply new_manager_consistent].
  - vm_compute. lia.
Defined.

(** ** Joining and leaving again *)

Lemma set_participants_same (room : MeetingRoom) ps :
  ps = participants room → set_participants ps room = room.
Proof. intros ->. by destruct room. Qed.

(** X4. When every transport accepts its frames, a human who joins a
    registered room under an id the room does not hold, and leaves it again,
    leaves the registry of rooms exactly as it was (unless the room was
    empty and due for cleanup, in which case the leave drops it). The
    mapping ends without an entry for the id: an entry that placed the id in
    another room before the join is lost. *)
Theorem join_then_leave_restores alive fuel fuel' now now' rid uid ws organizer m room :
  (∀ c, alive c = true) →
  meeting_rooms m !! rid = Some room →
  (participant_count room < max_participants room)%Z →
  participants room !! uid = None →
  should_cleanup now' room = false →
  (0 < fuel')%nat →
  ∃ m1 ev1 m2 ev2,
    join_meeting_room alive fuel now rid uid ws HUMAN organizer m = Some (true, m1, ev1)
    ∧ leave_meeting_room alive fuel' now' uid m1 = Some (true, m2, ev2)
    ∧ meeting_rooms m2 = meeting_rooms m
    ∧ participant_to_room m2 = delete uid (participant_to_room m).
Proof.
  intros Halive Hroom Hfree Hnew Hkeep Hfuel.
  destruct (join_existing_quiet alive fuel now rid uid ws HUMAN organizer m room Hroom Hfree)
    as (m1 & ev1 & Hj & Hrooms & Hmap & _); [by apply nobody_disconnected |].
  exists m1, ev1. destruct fuel' as [|fuel']; [lia |]. simpl.
  rewrite Hmap, lookup_insert_eq, Hrooms, lookup_insert_eq.
  unfold remove_participant.
  rewrite room_after_join_participants, lookup_insert_eq.
  match goal with |- context [_broadcast_to_room ?a ?l ?r ?t ?f ?e ?m0] =>
    destruct (broadcast_alive alive Halive l r t f e m0) as [ev Hb] end.
  rewrite Hb. simpl. rewrite lookup_insert_eq.
  assert (Hback : set_participants
            (delete uid (<[uid:=new_Participant now uid ws HUMAN organizer]> (participants room)))
            (room_after_join now uid ws HUMAN organizer room) = room).
  { unfold room_after_join. simpl. rewrite delete_insert_id by done. by destruct room. }
  rewrite Hback, Hkeep. eexists _, _. split; [done |]. split; [reflexivity |]. simpl.
  split.
  - rewrite insert_insert_eq. by apply insert_id.
  - by rewrite delete_insert_eq.
Qed.

Lemma join_then_leave_restores_witness :
  ∃ m1 ev1 m2 ev2,
    join_meeting_room all_alive 4 3%Z "R2" "U3" (Connection 3) HUMAN false manager_R2_open
    = Some (true, m1, ev1)
    ∧ leave_meeting_room all_alive 1 4%Z "U3" m1 = Some (true, m2, ev2)
    ∧ meeting_rooms m2 = meeting_rooms manager_R2_open
    ∧ participant_to_room m2 = delete "U3" (participant_to_room manager_R2_open).
Proof.
  apply (join_then_leave_restores all_alive 4 1 3%Z 4%Z "R2" "U3" (Connection 3) false
           manager_R2_open room_R2_open).
  - done.
  - vm_compute. reflexivity.
  - vm_compute. reflexivity.
  - vm_compute. reflexivity.
  - vm_compute. reflexivity.
  - lia.
Defined.

(** ** Creating a room twice *)

(** X5. [create_meeting_room] is idempotent: a second call for the same id
    returns the room of the first call and changes nothing, whatever maximum
    it asks for; the maximum and the creation time of a room are those of
    the call that created it. *)
Theorem create_meeting_room_idempotent now now' rid maxp maxp' m :
  create_meeting_room now' rid maxp' (create_meeting_room now rid maxp m).2
  = create_meeting_room now rid maxp m.
Proof.
  pose proof (create_lookup now rid maxp m) as Hl.
  destruct (create_meeting_room now rid maxp m) as [r m1] eqn:Hc. simpl in *.
  unfold create_meeting_room at 1. by rewrite Hl.
Qed.

(** ** Who receives a broadcast *)

(** X6. When every transport accepts its frames a broadcast changes nothing
    and hands one frame to each participant of the room except the sender:
    a participant is addressed exactly when it is in the room and its id
    differs from the excluded one. An excluded id that is the empty string
    excludes nobody. *)
Theorem broadcast_recipients alive fuel now rid ty from excl m room :
  (∀ c, alive c = true) →
  meeting_rooms m !! rid = Some room →
  broadcast_to_room alive fuel now rid ty from excl m
  = Some (m, (λ p, SendText (websocket p) ty from) <$> broadcast_targets excl room)
  ∧ ∀ p, p ∈ broadcast_targets excl room
         ↔ p ∈ participant_values room ∧ may_receive excl p.
Proof.
  intros Halive Hroom. split.
  - unfold broadcast_to_room, _broadcast_to_room. rewrite Hroom.
    rewrite nobody_disconnected by done. simpl. by rewrite app_nil_r.
  - intros p. unfold broadcast_targets.
    rewrite list_elem_of_In, filter_In, <- list_elem_of_In.
    apply and_iff_compat_l. unfold excluded, may_receive.
    destruct excl as [e|]; [| done].
    destruct (decide (e = EmptyString)) as [->|He].
    + rewrite bool_decide_eq_true_2 by done. simpl. split; auto.
    + rewrite (bool_decide_eq_false_2 (e = EmptyString)) by done. simpl.
      rewrite negb_true_iff, bool_decide_eq_false. split; [auto | intros [|]; done].
Qed.

Lemma broadcast_recipients_witness :
  broadcast_to_room all_alive 3 9%Z "R1" "offer" (Some "U1") (Some "U1") manager_R1_full
  = Some (manager_R1_full, [SendText (Connection 2) "offer" (Some "U1")]).
Proof.
  refine (eq_trans (proj1 (broadcast_recipients all_alive 3 9%Z "R1" "offer" (Some "U1")
                             (Some "U1") manager_R1_full room_R1_full _ _)) _).
  - done.
  - vm_compute. reflexivity.
  - vm_compute. reflexivity.
Defined.

(** ** Snapshots of a room, and waiting for humans *)

Lemma view_is_human_to_dict (p : Participant) : view_is_human (to_dict p) = is_human p.
Proof. unfold view_is_human, is_human. by destruct p as [? ? [] ? ? ? ? ?]. Qed.

Lemma filter_views (l : list Participant) :
  List.filter view_is_human (to_dict <$> l) = to_dict <$> List.filter is_human l.
Proof.
  induction l as [|p l IH]; [done |].
  rewrite fmap_cons. cbn [List.filter]. rewrite view_is_human_to_dict.
  destruct (is_human p); [rewrite fmap_cons |]; by rewrite IH.
Qed.

(** X7. The snapshot [get_room_participants] gives is empty for a room that
    is not registered and has one view per participant otherwise; and the
    views that read as human, the test the scheduled join polls, are exactly
    the views of the participants the room itself counts as human. *)
Theorem snapshot_agrees_with_room rid m :
  (meeting_rooms m !! rid = None → get_room_participants rid m = [])
  ∧ ∀ room, meeting_rooms m !! rid = Some room →
      length (get_room_participants rid m) = size (participants room)
      ∧ List.filter view_is_human (get_room_participants rid m)
        = to_dict <$> get_human_participants room
      ∧ (has_human_participants room = true ↔ get_human_participants room ≠ []).
Proof.
  split.
  - intros Hr. unfold get_room_participants. by rewrite Hr.
  - intros room Hr. unfold get_room_participants. rewrite Hr. split; [| split].
    + unfold get_participant_list, participant_values.
      by rewrite !length_fmap, length_map_to_list.
    + apply filter_views.
    + unfold has_human_participants, get_human_participants.
      induction (participant_values room) as [|p l IH]; simpl; [done |].
      destruct (is_human p); simpl; [done | exact IH].
Qed.

Lemma wait_loop_times_out registry_at rid timeout_time :
  ∀ n now,
    (now + seconds 5 * Z.of_nat n = timeout_time)%Z →
    (∀ k, (k < n)%nat →
          List.filter view_is_human
            (get_room_participants rid (registry_at (now + seconds 5 * Z.of_nat k)%Z)) = []) →
    _wait_for_participants_loop (S n) registry_at rid timeout_time now
    = Some (false, timeout_time).
Proof.
  induction n as [|n IH]; intros now Hend Hnone.
  - simpl. rewrite bool_decide_eq_false_2 by (unfold seconds in *; lia).
    f_equal. f_equal. unfold seconds in *. lia.
  - cbn [_wait_for_participants_loop].
    rewrite bool_decide_eq_true_2 by (unfold seconds in *; lia).
    pose proof (Hnone 0%nat ltac:(lia)) as H0.
    replace (now + seconds 5 * Z.of_nat 0)%Z with now in H0 by (unfold seconds; lia).
    rewrite H0. apply IH.
    + unfold seconds in *. lia.
    + intros k Hk. specialize (Hnone (S k) ltac:(lia)).
      replace (now + seconds 5 + seconds 5 * Z.of_nat k)%Z
        with (now + seconds 5 * Z.of_nat (S k))%Z by (unfold seconds; lia).
      exact Hnone.
Qed.

Lemma wait_loop_finds registry_at rid timeout_time :
  ∀ n fuel now,
    (n < fuel)%nat →
    (now + seconds 5 * Z.of_nat n < timeout_time)%Z →
    (∀ k, (k < n)%nat →
          List.filter view_is_human
            (get_room_participants rid (registry_at (now + seconds 5 * Z.of_nat k)%Z)) = []) →
    List.filter view_is_human
      (get_room_participants rid (registry_at (now + seconds 5 * Z.of_nat n)%Z)) ≠ [] →
    _wait_for_participants_loop fuel registry_at rid timeout_time now
    = Some (true, (now + seconds 5 * Z.of_nat n)%Z).
Proof.
  induction n as [|n IH]; intros fuel now Hfuel Hbefore Hnone Hfound;
    (destruct fuel as [|fuel]; [lia |]); cbn [_wait_for_participants_loop].
  - replace (now + seconds 5 * Z.of_nat 0)%Z with now in * by (unfold seconds; lia).
    rewrite bool_decide_eq_true_2 by done.
    by destruct (List.filter _ _).
  - rewrite bool_decide_eq_true_2 by (unfold seconds in *; lia).
    pose proof (Hnone 0%nat ltac:(lia)) as H0.
    replace (now + seconds 5 * Z.of_nat 0)%Z with now in H0 by (unfold seconds; lia).
    rewrite H0.
    replace (now + seconds 5 * Z.of_nat (S n))%Z
      with (now + seconds 5 + seconds 5 * Z.of_nat n)%Z in * by (unfold seconds; lia).
    apply IH; [lia | done | | done].
    intros k Hk. specialize (Hnone (S k) ltac:(lia)).
    replace (now + seconds 5 + seconds 5 * Z.of_nat k)%Z
      with (now + seconds 5 * Z.of_nat (S k))%Z by (unfold seconds; lia).
    exact Hnone.
Qed.

(** X8. [_wait_for_participants] always returns within its bound. It polls
    the room every five seconds from [now]; with a timeout of [minutes]
    minutes it makes at most [12 * minutes] polls. When the first poll that
    finds a human is poll number [n] it returns [True] at that instant;
    when none of the polls finds one it returns [False] exactly [minutes]
    minutes after [now]. *)
Theorem wait_for_participants_bounded registry_at rid (timeout_minutes : Z) (now : datetime) :
  (0 ≤ timeout_minutes)%Z →
  let humans_at (k : nat) :=
    List.filter view_is_human
      (get_room_participants rid (registry_at (now + seconds 5 * Z.of_nat k)%Z)) in
  (∀ n, (Z.of_nat n < 12 * timeout_minutes)%Z →
        (∀ k, (k < n)%nat → humans_at k = []) → humans_at n ≠ [] →
        _wait_for_participants registry_at rid timeout_minutes now
        = Some (true, (now + seconds 5 * Z.of_nat n)%Z))
  ∧ ((∀ k, (Z.of_nat k < 12 * timeout_minutes)%Z → humans_at k = []) →
     _wait_for_participants registry_at rid timeout_minutes now
     = Some (false, (now + minutes timeout_minutes)%Z)).
Proof.
  intros Htm humans_at. unfold _wait_for_participants, wait_fuel. split.
  - intros n Hn Hnone Hfound.
    apply wait_loop_finds; [lia | unfold minutes, seconds; lia | done | done].
  - intros Hnone. apply wait_loop_times_out.
    + unfold minutes, seconds. lia.
    + intros k Hk. apply Hnone. lia.
Qed.

Lemma wait_for_participants_bounded_witness :
  _wait_for_participants nobody_there "R1" 10 0%Z = Some (false, (0 + minutes 10)%Z).
Proof.
  refine (proj2 (wait_for_participants_bounded nobody_there "R1" 10 0%Z _) _).
  - lia.
  - intros k _. reflexivity.
Defined.

(** * Further properties of the conversation flow *)

Section FlowCalls.

Variable generate_next_question :
  list Message → list string → option (gmap string string) → string.

Lemma extends_refl f : extends f f.
Proof. split; [exists []; by rewrite app_nil_r | by repeat split]. Qed.

Lemma extends_trans f1 f2 f3 : extends f1 f2 → extends f2 f3 → extends f1 f3.
Proof.
  intros ([a1 Ha1] & ? & ? & ? & ? & ? & ? & ? & ?) ([a2 Ha2] & ? & ? & ? & ? & ? & ? & ? & ?).
  split; [exists (a1 ++ a2); by rewrite Ha2, Ha1, app_assoc |].
  repeat split; try congruence; [lia | auto].
Qed.

Ltac extends_by_appending :=
  split; [eexists; rewrite <- ?app_assoc; reflexivity
        | repeat split; cbn; try done; try lia].

Lemma apply_flow_op_extends f op :
  extends f (apply_flow_op generate_next_question f op).
Proof.
  destruct op as [now | now msg uid | now | now]; unfold apply_flow_op.
  - unfold start_conversation.
    destruct (questions f) as [|q0 qs] eqn:Hq; [apply extends_refl |].
    destruct (lead_data (set_state AI_SPEAKING f)) as [ld|] eqn:Hld; simpl.
    + extends_by_appending.
    + split; [exists []; by rewrite app_nil_r | by repeat split].
  - unfold process_user_response. cbn [_save_conversation_message].
    destruct (conversation_complete _).
    + cbn. extends_by_appending.
    + unfold _generate_next_question. cbn. extends_by_appending.
  - unfold handle_silence_timeout.
    destruct (should_prompt_user now f); cbn; [| apply extends_refl].
    extends_by_appending.
  - cbn. extends_by_appending.
Qed.

Lemma run_flow_extends ops : ∀ f, extends f (run_flow generate_next_question ops f).
Proof.
  induction ops as [|op ops IH]; intros f; [apply extends_refl |].
  eapply extends_trans; [apply apply_flow_op_extends | apply IH].
Qed.

End FlowCalls.

(** X9. Whatever calls a conversation receives ([start_conversation],
    [process_user_response], [handle_silence_timeout],
    [_complete_conversation], in any order), its history is only appended
    to, its question index never goes back, and its questions, lead,
    maximum, timeout and ids stay as they are. *)
Theorem flow_history_append_only
    (generate_next_question : list Message → list string → option (gmap string string) → string)
    (ops : list FlowOp) (f : ConversationFlow) :
  let f' := run_flow generate_next_question ops f in
  conversation_history f `prefix_of` conversation_history f'
  ∧ (current_question_index f ≤ current_question_index f')%nat
  ∧ questions f' = questions f
  ∧ lead_data f' = lead_data f
  ∧ max_questions f' = max_questions f
  ∧ silence_timeout f' = silence_timeout f
  ∧ orchestrator.meeting_id f' = orchestrator.meeting_id f
  ∧ orchestrator.room_id f' = orchestrator.room_id f.
Proof.
  destruct (run_flow_extends generate_next_question ops f)
    as (Hh & Hi & Hq & Hl & Hm & Hs & Hmid & Hrid & _).
  by repeat split.
Qed.

(** X10. No method of the flow ever puts it in the state
    [WAITING_FOR_RESPONSE]. A conversation that is not in that state (a new
    one is in [WAITING]) therefore never is, whatever calls it receives:
    [should_prompt_user] is false at every instant, [handle_silence_timeout]
    returns [None] and appends nothing, and a turn of the monitoring loop
    broadcasts nothing. *)
Theorem flow_never_prompts
    (generate_next_question : list Message → list string → option (gmap string string) → string)
    (ops : list FlowOp) (f : ConversationFlow) :
  state f ≠ WAITING_FOR_RESPONSE →
  let f' := run_flow generate_next_question ops f in
  state f' ≠ WAITING_FOR_RESPONSE
  ∧ ∀ now,
      should_prompt_user now f' = false
      ∧ handle_silence_timeout now f' = (None, f', [])
      ∧ ∀ alive rid m,
          monitor_tick alive now rid f' m
          = Some (negb (bool_decide (state f' = COMPLETED)), f', m, []).
Proof.
  intros Hst f'.
  assert (Hst' : state f' ≠ WAITING_FOR_RESPONSE).
  { by apply (run_flow_extends generate_next_question ops f). }
  split; [done |]. intros now.
  assert (Hp : should_prompt_user now f' = false).
  { unfold should_prompt_user. by rewrite bool_decide_eq_false_2. }
  assert (Hh : handle_silence_timeout now f' = (None, f', [])).
  { unfold handle_silence_timeout. by rewrite Hp. }
  split; [done |]. split; [done |].
  intros alive rid m. unfold monitor_tick. rewrite Hh.
  by destruct (bool_decide (state f' = COMPLETED)).
Qed.

Lemma flow_never_prompts_witness :
  should_prompt_user (minutes 30)
    (run_flow follow_up [OpStart 0%Z; OpRespond (seconds 10) "answer 1" "U1"]
       (initialize lead_acme planned_questions None (new_ConversationFlow 0%Z "M1" "R1")))
  = false.
Proof.
  refine (proj1 (proj2 (flow_never_prompts follow_up
                          [OpStart 0%Z; OpRespond (seconds 10) "answer 1" "U1"]
                          (initialize lead_acme planned_questions None
                             (new_ConversationFlow 0%Z "M1" "R1")) _) (minutes 30))).
  discriminate.
Defined.

(** X11. An answer that does not complete the conversation is followed by
    the next planned question while there is one; once the planned questions
    are used up the follow-up generator is asked, and the list of remaining
    questions it is given is always empty. Either way the history grows by
    the answer and the question, and the index by one. *)
Theorem next_question_planned_or_generated
    (generate_next_question : list Message → list string → option (gmap string string) → string)
    now user_message uid (f : ConversationFlow) :
  (Z.of_nat (length (conversation_history f)) + 1 < max_questions f * 2)%Z →
  let out := process_user_response generate_next_question now user_message uid f in
  let answer := {| speaker := "human"; message := user_message;
                   timestamp := now; speaker_id := Some uid |} in
  (∀ q, questions f !! S (current_question_index f) = Some q → out.1.1 = q)
  ∧ ((length (questions f) ≤ S (current_question_index f))%nat →
     out.1.1 = generate_next_question (conversation_history f ++ [answer]) [] (lead_data f))
  ∧ state out.1.2 = AI_SPEAKING
  ∧ current_question_index out.1.2 = S (current_question_index f)
  ∧ orchestrator.last_activity out.1.2 = now
  ∧ conversation_history out.1.2
    = conversation_history f
        ++ [ answer;
             {| speaker := "ai"; message := out.1.1;
                timestamp := (now + ai_response_delay f)%Z; speaker_id := None |} ].
Proof.
  intros Hroom out answer. subst out. unfold process_user_response.
  cbn [_save_conversation_message].
  assert (Hc : conversation_complete
                 (set_last_activity now
                    (set_history (conversation_history f ++ [answer]) f)) = false).
  { unfold conversation_complete. cbn. rewrite length_app. cbn [length].
    apply Z.leb_gt. lia. }
  subst answer. rewrite Hc. unfold _generate_next_question. cbn.
  split; [by intros q -> |]. split.
  - intros Hlen. rewrite lookup_ge_None_2 by done. by rewrite drop_ge.
  - repeat split. by rewrite <- app_assoc.
Qed.

Lemma next_question_planned_or_generated_witness :
  (process_user_response follow_up 10%Z "answer 1" "U1"
     (result_flow (start_conversation 0%Z
        (initialize lead_acme planned_questions None
           (new_ConversationFlow 0%Z "M1" "R1"))))).1.1 = "Q2".
Proof.
  refine (proj1 (next_question_planned_or_generated follow_up 10%Z "answer 1" "U1"
                   (result_flow (start_conversation 0%Z
                      (initialize lead_acme planned_questions None
                         (new_ConversationFlow 0%Z "M1" "R1")))) _) "Q2" _).
  - vm_compute. reflexivity.
  - reflexivity.
Defined.

(** X12. Once the history has reached twice the maximum number of
    questions, every further answer is met with the closing message: the
    flow is [COMPLETED], the answer and the closing message are appended,
    the question index stays, and the analysis of the conversation is
    spawned once more. The threshold still holds afterwards, so this goes
    on for every later answer. *)
Theorem completed_conversation_keeps_closing
    (generate_next_question : list Message → list string → option (gmap string string) → string)
    now user_message uid (f : ConversationFlow) :
  (max_questions f * 2 ≤ Z.of_nat (length (conversation_history f)) + 1)%Z →
  let out := process_user_response generate_next_question now user_message uid f in
  out.1.1 = completion_message
  ∧ state out.1.2 = COMPLETED
  ∧ current_question_index out.1.2 = current_question_index f
  ∧ length (conversation_history out.1.2) = length (conversation_history f) + 2
  ∧ AnalysisSpawned (orchestrator.meeting_id f) ∈ out.2
  ∧ (max_questions out.1.2 * 2 ≤ Z.of_nat (length (conversation_history out.1.2)) + 1)%Z.
Proof.
  intros Hfull out. subst out. unfold process_user_response.
  cbn [_save_conversation_message].
  match goal with |- context [conversation_complete ?g] =>
    assert (Hc : conversation_complete g = true) end.
  { unfold conversation_complete. cbn. rewrite length_app. cbn [length].
    apply Z.leb_le. lia. }
  rewrite Hc. cbn. rewrite !length_app. cbn [length].
  repeat split; try lia.
  apply list_elem_of_further, list_elem_of_further, list_elem_of_here.
Qed.

Lemma completed_conversation_keeps_closing_witness :
  (process_user_response follow_up 90%Z "one more thing" "U1"
     (set_history
        (replicate 14 {| speaker := "human"; message := "x"; timestamp := 0%Z;
                         speaker_id := None |})
        (new_ConversationFlow 0%Z "M1" "R1"))).1.1 = completion_message.
Proof.
  refine (proj1 (completed_conversation_keeps_closing follow_up 90%Z "one more thing" "U1"
                   (set_history
                      (replicate 14 {| speaker := "human"; message := "x"; timestamp := 0%Z;
                                       speaker_id := None |})
                      (new_ConversationFlow 0%Z "M1" "R1")) _)).
  vm_compute. discriminate.
Defined.

(** ** The status of the lead *)

Lemma score_threshold (t : Z) (s s' : QArith_base.Q) :
  QArith_base.Qle s s' →
  QArith_base.Qle_bool (QArith_base.inject_Z t) s = true →
  QArith_base.Qle_bool (QArith_base.inject_Z t) s' = true.
Proof.
  rewrite !QArith_base.Qle_bool_iff. intros Hs Ht.
  eapply QArith_base.Qle_trans; [exact Ht | exact Hs].
Qed.

(** X13. The status [_determine_lead_status] gives never gets colder when
    the score rises and the qualification stays the same; an analysis
    without a qualification, or only partially qualified, is [warm] at any
    score; and the default analysis, whose score is ten points for each
    answer of the human and at most seventy, always makes the lead [warm]. *)
Theorem lead_status_by_score :
  (∀ status s s',
      QArith_base.Qle s s' →
      (status_rank (_determine_lead_status {| verdict_status := status; verdict_score := Some s |})
       ≤ status_rank (_determine_lead_status
                        {| verdict_status := status; verdict_score := Some s' |}))%nat)
  ∧ (∀ score, _determine_lead_status {| verdict_status := None; verdict_score := score |}
              = "warm")
  ∧ (∀ score, _determine_lead_status
                {| verdict_status := Some "partially_qualified"; verdict_score := score |}
              = "warm")
  ∧ (∀ h, _determine_lead_status (_get_default_analysis h) = "warm"
          ∧ verdict_score (_get_default_analysis h)
            = Some (QArith_base.inject_Z
                      (Z.min (10 * Z.of_nat (human_message_count h)) 70))).
Proof.
  split; [| split; [| split]].
  - intros status s s' Hs. unfold _determine_lead_status.
    destruct status as [st|]; cbn [verdict_status verdict_score from_option default id];
      [| vm_compute; lia].
    change (id st) with st. change (id s) with s. change (id s') with s'.
    case_bool_decide as Hq; [subst st | cbn; done].
    destruct (QArith_base.Qle_bool (QArith_base.inject_Z 80) s) eqn:H80.
    + rewrite (score_threshold 80 s s' Hs H80). done.
    + destruct (QArith_base.Qle_bool (QArith_base.inject_Z 60) s) eqn:H60.
      * rewrite (score_threshold 60 s s' Hs H60).
        destruct (QArith_base.Qle_bool (QArith_base.inject_Z 80) s'); cbn; [| done].
        vm_compute. lia.
      * destruct (QArith_base.Qle_bool (QArith_base.inject_Z 80) s'); cbn;
          [vm_compute; lia |].
        destruct (QArith_base.Qle_bool (QArith_base.inject_Z 60) s'); cbn;
          vm_compute; lia.
  - done.
  - done.
  - intros h. split; [done |]. unfold _get_default_analysis. cbn.
    do 2 f_equal. lia.
Qed.

(** ** The scheduled join when something is missing *)

Lemma wait_loop_returns registry_at rid timeout_time :
  ∀ fuel now,
    (0 < fuel)%nat →
    (timeout_time - now ≤ seconds 5 * (Z.of_nat fuel - 1))%Z →
    ∃ arrived t, _wait_for_participants_loop fuel registry_at rid timeout_time now
                 = Some (arrived, t)
                 ∧ (now ≤ t)%Z.
Proof.
  induction fuel as [|fuel IH]; intros now Hpos Hfuel; [lia |].
  cbn [_wait_for_participants_loop]. case_bool_decide as Hnow.
  - destruct (List.filter _ _); [| exists true, now; split; [done | lia]].
    destruct (IH (now + seconds 5)%Z) as (arrived & t & Hloop & Ht).
    + unfold seconds in *. lia.
    + unfold seconds in *. lia.
    + exists arrived, t. split; [done |]. unfold seconds in *. lia.
  - exists false, now. split; [done | lia].
Qed.

Lemma wait_returns registry_at rid timeout_minutes now :
  ∃ arrived t, _wait_for_participants registry_at rid timeout_minutes now
               = Some (arrived, t)
               ∧ (now ≤ t)%Z.
Proof.
  unfold _wait_for_participants, wait_fuel. apply wait_loop_returns; [lia |].
  unfold minutes, seconds. lia.
Qed.

(** X14. What [join_scheduled_meeting] does when something is missing. When
    the meeting row cannot be read or is not there, or when no lead is given
    and none can be read, it returns [False] at once and touches neither the
    orchestrator nor the rooms. When the status update fails, which happens
    after the wait, it returns [False] as well, but the conversation it has
    created by then stays registered for the meeting, initialized and never
    started. *)
Theorem scheduled_join_failures alive text_to_speech registry_at now mid rid lead
    meeting_reply lead_reply set_questions model_reply status_update_ok o :
  let join :=
    join_scheduled_meeting alive text_to_speech registry_at now mid rid lead
      meeting_reply lead_reply set_questions model_reply status_update_ok o in
  ((meeting_reply = DbRaised ∨ meeting_reply = DbRows []) →
   ∃ err, join = Some (false, o, registry_at now, [LogError err]))
  ∧ (∀ row rows, meeting_reply = DbRows (row :: rows) → lead_given lead = None →
       (lead_reply = DbRaised ∨ lead_reply = DbRows []) →
       ∃ err, join = Some (false, o, registry_at now, [LogError err]))
  ∧ (∀ row rows ld, meeting_reply = DbRows (row :: rows) →
       (lead_given lead = Some ld
        ∨ (lead_given lead = None ∧ ∃ lds, lead_reply = DbRows (ld :: lds))) →
       status_update_ok = false →
       ∃ t o' eff,
         join = Some (false, o', registry_at t, eff)
         ∧ (now ≤ t)%Z
         ∧ active_conversations o' !! mid
           = Some (initialize ld set_questions model_reply (new_ConversationFlow t mid rid))
         ∧ (∀ other, other ≠ mid →
              active_conversations o' !! other = active_conversations o !! other)).
Proof.
  intros join. subst join. unfold join_scheduled_meeting. split; [| split].
  - intros [-> | ->]; eauto.
  - intros row rows -> Hlead [-> | ->]; rewrite Hlead; eauto.
  - intros row rows ld -> Hlead ->.
    assert (Hfound : match lead_given lead with
                     | Some ld0 => inr ld0
                     | None =>
                         match lead_reply with
                         | DbRaised => inl (LogError "Failed to join meeting")
                         | DbRows [] => inl (LogError "Lead not found")
                         | DbRows (ld0 :: _) => inr ld0
                         end
                     end = inr ld).
    { destruct Hlead as [-> | (-> & lds & ->)]; done. }
    rewrite Hfound.
    destruct (wait_returns registry_at rid 10 now) as (arrived & t & Hwait & Ht).
    rewrite Hwait. cbn.
    eexists t, _, _. split; [reflexivity |]. split; [done |]. cbn. split.
    + apply lookup_insert_eq.
    + intros other Hother. by apply lookup_insert_ne.
Qed.

(** ** Messages for a meeting, and ending it *)

Lemma speak_returns alive text_to_speech now rid text m :
  ∃ m' ev, _speak_message alive text_to_speech now rid text m = Some (m', ev)
           ∧ manager_le m' m.
Proof.
  assert (Hb : ∀ ty from m0, ∃ m1 ev1,
            broadcast_to_room alive (enough_fuel m0) now rid ty from None m0 = Some (m1, ev1)
            ∧ manager_le m1 m0).
  { intros ty from m0.
    destruct (broadcast_with_fuel_returns alive (enough_fuel m0) now rid ty from None m0)
      as [[m1 ev1] H1]; [unfold enough_fuel; lia |].
    exists m1, ev1. split; [done |].
    eapply shrinks_le, broadcast_shrinks; [| exact H1]. intros. by eapply leave_shrinks. }
  unfold _speak_message. destruct (text_to_speech text).
  - destruct (Hb "ai_voice_message" (Some "ai-assistant") m) as (m1 & ev1 & H1 & Hle1).
    destruct (Hb "ai_speaking_finished" (Some "ai-assistant") m1) as (m2 & ev2 & H2 & Hle2).
    rewrite H1. simpl. rewrite H2. simpl.
    eexists _, _. split; [done |]. by eapply manager_le_trans.
  - apply Hb.
  - eexists _, _. split; [done | apply manager_le_refl].
Qed.

Lemma process_user_message_known
    (generate_next_question : list Message → list string → option (gmap string string) → string)
    alive text_to_speech now mid rid user_message uid o m conversation :
  active_conversations o !! mid = Some conversation →
  ∃ o' m' eff,
    process_user_message generate_next_question alive text_to_speech
      now mid rid user_message uid o m
    = Some (Some (process_user_response generate_next_question now user_message uid
                    conversation).1.1, o', m', eff)
    ∧ active_conversations o' !! mid
      = Some (process_user_response generate_next_question now user_message uid
                conversation).1.2
    ∧ (∀ other, other ≠ mid →
         active_conversations o' !! other = active_conversations o !! other)
    ∧ ai_voice_participants o' = ai_voice_participants o
    ∧ manager_le m' m.
Proof.
  intros Hc. unfold process_user_message. rewrite Hc.
  destruct (process_user_response _ _ _ _ conversation) as [[reply f'] eff] eqn:Hout.
  cbn [fst snd].
  assert (Hreg : ∀ o0, o0 = set_conversations (<[mid:=f']> (active_conversations o)) o →
            active_conversations o0 !! mid = Some f'
            ∧ (∀ other, other ≠ mid →
                 active_conversations o0 !! other = active_conversations o !! other)
            ∧ ai_voice_participants o0 = ai_voice_participants o).
  { intros o0 ->. simpl. split; [apply lookup_insert_eq |]. split; [| done].
    intros other Hother. by apply lookup_insert_ne. }
  case_bool_decide as Hempty.
  - eexists _, _, _. split; [reflexivity |].
    destruct (Hreg _ eq_refl) as (? & ? & ?).
    split; [done |]. split; [done |]. split; [done |]. apply manager_le_refl.
  - destruct (ai_voice_participants o !! mid) as [voice|].
    + destruct (speak_returns alive text_to_speech
                  (now + ai_response_delay conversation)%Z (voice_room_id voice) reply m)
        as (m' & ev & Hs & Hle).
      rewrite Hs. simpl. eexists _, _, _. split; [reflexivity |].
      destruct (Hreg _ eq_refl) as (? & ? & ?).
      split; [done |]. split; [done |]. split; [done |]. exact Hle.
    + destruct (broadcast_with_fuel_returns alive (enough_fuel m)
                  (now + ai_response_delay conversation)%Z rid "ai_message" None None m)
        as [[m' ev] Hb]; [unfold enough_fuel; lia |].
      unfold broadcast_to_room. rewrite Hb. simpl.
      eexists _, _, _. split; [reflexivity |].
      destruct (Hreg _ eq_refl) as (? & ? & ?).
      split; [done |]. split; [done |]. split; [done |].
      eapply shrinks_le, broadcast_shrinks; [| exact Hb].
      intros; by eapply leave_shrinks.
Qed.

(** X15. [process_user_message] for a meeting that has no active
    conversation returns [None] and does nothing. For a meeting that has
    one, whatever the transports do, it returns the reply of the
    conversation, registers the conversation as that call left it, leaves
    every other conversation alone, and only takes away from the rooms. *)
Theorem process_user_message_relays
    (generate_next_question : list Message → list string → option (gmap string string) → string)
    alive text_to_speech now mid rid user_message uid o m :
  let call := process_user_message generate_next_question alive text_to_speech
                now mid rid user_message uid o m in
  (active_conversations o !! mid = None → call = Some (None, o, m, []))
  ∧ ∀ conversation, active_conversations o !! mid = Some conversation →
      let out := process_user_response generate_next_question now user_message uid
                   conversation in
      ∃ o' m' eff,
        call = Some (Some out.1.1, o', m', eff)
        ∧ active_conversations o' !! mid = Some out.1.2
        ∧ (∀ other, other ≠ mid →
             active_conversations o' !! other = active_conversations o !! other)
        ∧ ai_voice_participants o' = ai_voice_participants o
        ∧ manager_le m' m.
Proof.
  intros call. subst call. split.
  - intros Hnone. unfold process_user_message. by rewrite Hnone.
  - intros conversation Hc. cbv zeta. by apply process_user_message_known.
Qed.

(** X16. [end_meeting_gracefully] for a meeting without active conversation
    returns the error and changes nothing. Otherwise it returns the analysis
    of the history as it stands after the closing message, which is appended
    (and the background analysis spawned) only when the conversation was not
    completed yet; the meeting is then no longer registered, the other
    meetings are, and a message for it gets no reply any more. *)
Theorem end_meeting_closes
    (generate_next_question : list Message → list string → option (gmap string string) → string)
    (Analysis : Type)
    (analyze_conversation : list Message → option (gmap string string) → Analysis)
    now mid (o : AIMeetingOrchestrator) :
  let ended := end_meeting_gracefully Analysis analyze_conversation now mid o in
  (active_conversations o !! mid = None
   → ended = (inl "No active conversation found", o, []))
  ∧ ∀ conversation, active_conversations o !! mid = Some conversation →
      let closing := {| speaker := "ai"; message := completion_message;
                        timestamp := now; speaker_id := None |} in
      let history := if bool_decide (state conversation = COMPLETED)
                     then conversation_history conversation
                     else conversation_history conversation ++ [closing] in
      ended.1.1 = inr (analyze_conversation history (lead_data conversation))
      ∧ ended.2 = (if bool_decide (state conversation = COMPLETED) then []
                   else [DbConversationEvent (orchestrator.meeting_id conversation) closing;
                         AnalysisSpawned (orchestrator.meeting_id conversation)])
      ∧ active_conversations ended.1.2 !! mid = None
      ∧ (∀ other, other ≠ mid →
           active_conversations ended.1.2 !! other = active_conversations o !! other)
      ∧ ∀ alive text_to_speech later rid user_message uid m,
          process_user_message generate_next_question alive text_to_speech
            later mid rid user_message uid ended.1.2 m
          = Some (None, ended.1.2, m, []).
Proof.
  intros ended. subst ended. unfold end_meeting_gracefully. split.
  - by intros ->.
  - intros conversation Hc. cbv zeta. rewrite Hc.
    assert (Hgone : ∀ o0, o0 = set_conversations (delete mid (active_conversations o)) o →
              active_conversations o0 !! mid = None
              ∧ (∀ other, other ≠ mid →
                   active_conversations o0 !! other = active_conversations o !! other)).
    { intros o0 ->. simpl. split; [apply lookup_delete_eq |].
      intros other Hother. by apply lookup_delete_ne. }
    case_bool_decide as Hst; cbn.
    all: destruct (Hgone _ eq_refl) as (Hnone & Hothers).
    all: repeat split; try done.
    all: intros; unfold process_user_message; cbn; by rewrite lookup_delete_eq.
Qed.

(** * Properties of the receive loop of the endpoint *)

Section Receive.

Variable generate_next_question :
  list Message → list string → option (gmap string string) → string.
Variable alive : nat → bool.
Variable text_to_speech : string → Speech.
Variable meeting_of_room : string → option string.

Lemma signaling_is_not_voice ty :
  is_signaling ty = true → bool_decide (ty = Some "voice_activity") = false.
Proof.
  unfold is_signaling. intros H. apply bool_decide_eq_false. intros ->.
  vm_compute in H. discriminate H.
Qed.

(** X17. An [offer], [answer] or [ice] frame that names a target user is
    dropped: nothing is sent to the target or to anybody else, nothing
    changes, and the loop goes on. *)
Theorem targeted_frames_are_dropped now rid uid ptype ty to_user is_active text o m :
  is_signaling ty = true → truthy to_user = true →
  receive generate_next_question alive text_to_speech meeting_of_room
      now rid uid ptype (Frame ty to_user is_active text) o m = Some (true, o, m, []).
Proof.
  intros Hty Hto. unfold endpoint.receive.
  by rewrite (signaling_is_not_voice ty Hty), Hty, Hto.
Qed.

(** X18. A turn of the receive loop always returns, and the loop goes on
    exactly when a frame was received. The orchestrator is reached only by
    the conversation message of a human in a room that has a meeting: for a
    frame of the agent, in a room without meeting, or for any other frame,
    the orchestrator is left as it is. *)
Theorem receive_reaches_orchestrator_for_humans now rid uid ptype inbound o m :
  ∃ goes_on o' m' eff,
    receive generate_next_question alive text_to_speech meeting_of_room
      now rid uid ptype inbound o m = Some (goes_on, o', m', eff)
    ∧ (goes_on = true ↔ ∃ ty to_user is_active text, inbound = Frame ty to_user is_active text)
    ∧ ((ptype = AI ∨ meeting_of_room rid = None
        ∨ ∀ to_user is_active text,
            inbound ≠ Frame (Some "conversation_message") to_user is_active text) →
       o' = o).
Proof.
  assert (Hb : ∀ ty from excl m0, ∃ m1 ev1,
            broadcast_to_room alive (enough_fuel m0) now rid ty from excl m0 = Some (m1, ev1)).
  { intros ty from excl m0.
    destruct (broadcast_with_fuel_returns alive (enough_fuel m0) now rid ty from excl m0)
      as [[m1 ev1] H1]; [unfold enough_fuel; lia | eauto]. }
  unfold endpoint.receive.
  destruct inbound as [| | ty to_user is_active text].
  1,2: destruct (leave_returns alive (enough_fuel m) now uid m) as [[[b m'] ev] Hl];
    [unfold enough_fuel; lia |]; rewrite Hl; simpl;
    eexists _, _, _, _; (split; [reflexivity |]); split; [| done];
    split; [done | intros (? & ? & ? & ? & ?); done].
  assert (Hframe : true = true ↔ ∃ ty0 to0 act0 text0,
            Frame ty to_user is_active text = Frame ty0 to0 act0 text0)
    by (split; [eauto 10 | done]).
  case_bool_decide as Hvoice.
  { destruct (voice_returns alive (enough_fuel m) now uid is_active m) as [[m' ev] Hv];
      [unfold enough_fuel; lia |].
    rewrite Hv. simpl. eexists _, _, _, _. split; [reflexivity |]. by split. }
  destruct (is_signaling ty) eqn:Hsig.
  { destruct (truthy to_user).
    - eexists _, _, _, _. split; [reflexivity |]. by split.
    - destruct (Hb (default EmptyString ty) (Some uid) (Some uid) m) as (m' & ev & ->).
      simpl. eexists _, _, _, _. split; [reflexivity |]. by split. }
  case_bool_decide as Hconv.
  - destruct (Hb "conversation_message" (Some uid) (Some uid) m) as (m1 & ev1 & ->). simpl.
    destruct ptype.
    + destruct (meeting_of_room rid) as [mid|] eqn:Hmeet.
      * destruct (active_conversations o !! mid) as [conversation|] eqn:Hc.
        -- destruct (process_user_message_known generate_next_question alive text_to_speech
                       now mid rid text uid o m1 conversation Hc) as (o' & m' & eff & -> & _).
           simpl. eexists _, _, _, _. split; [reflexivity |]. split; [done |].
           intros [? | [? | Hnot]]; [done | done |]. subst ty.
           by destruct (Hnot to_user is_active text).
        -- unfold process_user_message. rewrite Hc. simpl.
           eexists _, _, _, _. split; [reflexivity |]. by split.
      * eexists _, _, _, _. split; [reflexivity |]. by split.
    + eexists _, _, _, _. split; [reflexivity |]. by split.
  - destruct (Hb (default EmptyString ty) (Some uid) (Some uid) m) as (m' & ev & ->).
    simpl. eexists _, _, _, _. split; [reflexivity |]. by split.
Qed.

Lemma leave_each_events (P : Event → Prop) leave uids :
  (∀ u m b m' ev, leave u m = Some (b, m', ev) → Forall P ev) →
  ∀ m m' ev, leave_each leave uids m = Some (m', ev) → Forall P ev.
Proof.
  intros Hleave. induction uids as [|u us IH]; intros m m' ev H; simpl in H.
  - by simplify_eq.
  - destruct (leave u m) as [[[b m1] ev1]|] eqn:H1; [| done].
    destruct (leave_each leave us m1) as [[m2 ev2]|] eqn:H2; [| done].
    simplify_eq. apply Forall_app. split; [by eapply Hleave | by eapply IH].
Qed.

Lemma broadcast_events (P : Event → Prop) leave rid ty from excl m m' ev :
  (∀ u m b m' ev, leave u m = Some (b, m', ev) → Forall P ev) →
  (∀ ws, P (SendText ws ty from)) →
  _broadcast_to_room alive leave rid ty from excl m = Some (m', ev) → Forall P ev.
Proof.
  intros Hleave Hsend H. unfold _broadcast_to_room in H.
  destruct (meeting_rooms m !! rid) as [r|]; [| by simplify_eq].
  destruct (leave_each _ _ _) as [[m2 ev2]|] eqn:Heach; [| done].
  simplify_eq. apply Forall_app. split.
  - apply Forall_fmap, Forall_forall. intros p _. apply Hsend.
  - by eapply leave_each_events.
Qed.

Lemma cleanup_events rid m : Forall leave_event (_cleanup_room rid m).2.
Proof.
  unfold _cleanup_room. destruct (bool_decide _); simpl; [| done].
  constructor; [| done]. right; right; eauto.
Qed.

(** A leave hands out nothing but leave events, nested leaves included. *)
Lemma leave_events fuel now :
  ∀ uid m b m' ev,
    leave_meeting_room alive fuel now uid m = Some (b, m', ev) → Forall leave_event ev.
Proof.
  induction fuel as [|fuel IH]; intros uid m b m' ev H; simpl in H; [done |].
  destruct (participant_to_room m !! uid) as [rid|]; [| by simplify_eq].
  destruct (meeting_rooms m !! rid) as [room|]; [| by simplify_eq].
  destruct (remove_participant uid room) as [[] room1]; [| by simplify_eq].
  destruct (_broadcast_to_room _ _ _ _ _ _ _) as [[m2 ev2]|] eqn:Hb; [| done].
  apply (broadcast_events leave_event) in Hb;
    [| exact IH | intros ws; right; left; eauto].
  assert (Hshape : ∀ ev3, Forall leave_event ev3 →
            Forall leave_event (DbParticipantLeft rid uid :: ev2 ++ ev3)).
  { intros ev3 H3. constructor; [left; eauto |]. by apply Forall_app. }
  destruct (meeting_rooms m2 !! rid) as [r2|].
  - destruct (should_cleanup now r2).
    + pose proof (cleanup_events rid m2) as Hcl.
      destruct (_cleanup_room rid m2) as [m3 ev3].
      simplify_eq. by apply Hshape.
    + simplify_eq. by apply Hshape.
  - simplify_eq. by apply Hshape.
Qed.

(** X19. When the connection is lost, or a text arrives that is not a
    frame, the loop ends with a leave and with nothing else: the manager and
    the events the turn hands out are exactly those of
    [leave_meeting_room] for the participant, and those events are the
    records and [participant_left] announcements of leaves and the
    cancelling of tasks. No error frame is sent back, no socket is closed,
    the orchestrator is not told, the manager has only been taken away from,
    and the participant is no longer mapped to a room that holds it. *)
Theorem bad_input_ends_with_leave now rid uid ptype inbound o m :
  inbound = Disconnected ∨ inbound = Malformed →
  ∃ b m' ev,
    leave_meeting_room alive (enough_fuel m) now uid m = Some (b, m', ev)
    ∧ receive generate_next_question alive text_to_speech meeting_of_room
        now rid uid ptype inbound o m
      = Some (false, o, m', (λ e, Orchestrated (RoomEvent e)) <$> ev)
    ∧ Forall leave_event ev
    ∧ (∀ ws ty from, SendText ws ty from ∈ ev → ty = "participant_left")
    ∧ (∀ ws reason, Close ws reason ∉ ev)
    ∧ manager_le m' m
    ∧ ¬ seated m' uid.
Proof.
  intros Hin.
  destruct (leave_returns alive (enough_fuel m) now uid m) as [[[b m'] ev] Hl];
    [unfold enough_fuel; lia |].
  pose proof (leave_events _ _ _ _ _ _ _ Hl) as Hev.
  exists b, m', ev. split; [exact Hl |]. split.
  { unfold endpoint.receive. destruct Hin as [-> | ->]; by rewrite Hl. }
  split; [exact Hev |]. rewrite Forall_forall in Hev. split; [| split].
  - intros ws ty from He.
    destruct (Hev _ He) as [(? & ? & ?) | [(? & ? & ?) | (? & ?)]]; by simplify_eq.
  - intros ws reason He.
    destruct (Hev _ He) as [(? & ? & ?) | [(? & ? & ?) | (? & ?)]]; by simplify_eq.
  - split; [eapply shrinks_le, leave_shrinks, Hl |].
    by eapply leave_unseats.
Qed.

End Receive.

Lemma targeted_frames_are_dropped_witness :
  receive follow_up all_alive no_speech (λ _, Some "M1") 9%Z "R1" "U1" HUMAN
    (Frame (Some "offer") (Some "U2") false EmptyString) new_orchestrator manager_R1_full
  = Some (true, new_orchestrator, manager_R1_full, []).
Proof.
  apply (targeted_frames_are_dropped follow_up all_alive no_speech (λ _, Some "M1")
           9%Z "R1" "U1" HUMAN (Some "offer") (Some "U2") false EmptyString
           new_orchestrator manager_R1_full); reflexivity.
Defined.

Lemma bad_input_ends_with_leave_witness :
  ∃ b m' ev,
    leave_meeting_room all_alive (enough_fuel manager_R1_full) 9%Z "U1" manager_R1_full
    = Some (b, m', ev)
    ∧ receive follow_up all_alive no_speech (λ _, Some "M1") 9%Z "R1" "U1" HUMAN
        Malformed new_orchestrator manager_R1_full
      = Some (false, new_orchestrator, m', (λ e, Orchestrated (RoomEvent e)) <$> ev)
    ∧ Forall leave_event ev
    ∧ (∀ ws ty from, SendText ws ty from ∈ ev → ty = "participant_left")
    ∧ (∀ ws reason, Close ws reason ∉ ev)
    ∧ manager_le m' manager_R1_full
    ∧ ¬ seated m' "U1".
Proof.
  apply (bad_input_ends_with_leave follow_up all_alive no_speech (λ _, Some "M1")
           9%Z "R1" "U1" HUMAN Malformed new_orchestrator manager_R1_full).
  by right.
Defined.

(** * The agent's mark on a room, ids, and the opening *)

Lemma set_voice_activity_ai now uid a (r : MeetingRoom) :
  ai_participant (set_voice_activity now uid a r) = ai_participant r.
Proof.
  unfold set_voice_activity. destruct (participants r !! uid); [| done].
  destruct a; [done |]. by destruct (active_speakers _).
Qed.

Lemma room_after_join_ai now uid ws ptype org (room : MeetingRoom) :
  is_Some (ai_participant room) →
  is_Some (ai_participant (room_after_join now uid ws ptype org room)).
Proof. unfold room_after_join. destruct (bool_decide _); simpl; eauto. Qed.

Lemma shrinks_keep_ai m m' rid r' :
  rtc shrink_step m m' → meeting_rooms m' !! rid = Some r' →
  ∃ r, meeting_rooms m !! rid = Some r ∧ ai_participant r' = ai_participant r.
Proof.
  intros Hsh Hr'. apply shrinks_le in Hsh as (Hrooms & _).
  destruct (Hrooms rid r' Hr') as (r & Hr & _ & _ & _ & _ & Hai & _). eauto.
Qed.

(** X20. Nothing ever clears the mark the agent leaves on a room: across
    any call on the manager a registered room whose [ai_participant] is set
    either is dropped or still has it set, also after the agent itself has
    left. In such a room no join ever schedules the agent's auto-join: a
    join adds no task. *)
Theorem agent_mark_is_never_cleared alive m op m' rid r :
  apply_op alive m op = Some m' →
  meeting_rooms m !! rid = Some r → is_Some (ai_participant r) →
  (∀ r', meeting_rooms m' !! rid = Some r' → is_Some (ai_participant r'))
  ∧ (∀ now uid ws ptype organizer, op = Join now rid uid ws ptype organizer →
       ai_auto_join_tasks m' ⊆ ai_auto_join_tasks m).
Proof.
  intros Hop Hr Hai.
  destruct op as [now rid0 maxp | now rid0 uid ws ptype org | now uid | now uid a];
    unfold apply_op in Hop.
  - simplify_eq. split; [| done]. intros r' Hr'. unfold create_meeting_room in Hr'.
    destruct (meeting_rooms m !! rid0) eqn:H0; simpl in Hr'; [by simplify_eq |].
    rewrite lookup_insert_ne in Hr' by congruence. by simplify_eq.
  - destruct (join_meeting_room _ _ _ _ _ _ _ _ _) as [[[b m1] ev]|] eqn:Hj;
      simpl in Hop; simplify_eq.
    destruct (decide (rid0 = rid)) as [->|Hne].
    + unfold join_meeting_room in Hj. rewrite Hr in Hj. unfold add_participant in Hj.
      destruct (max_participants r <=? participant_count r)%Z;
        [simplify_eq; split; [intros; by simplify_eq | done] |].
      change (if bool_decide (ptype = AI)
              then set_ai_participant (Some (new_Participant now uid ws ptype org))
                     (set_participants
                        (<[user_id (new_Participant now uid ws ptype org)
                           :=new_Participant now uid ws ptype org]> (participants r)) r)
              else set_participants
                     (<[user_id (new_Participant now uid ws ptype org)
                        :=new_Participant now uid ws ptype org]> (participants r)) r)
        with (room_after_join now uid ws ptype org r) in Hj.
      destruct (_broadcast_to_room _ _ _ _ _ _ _) as [[m2 ev2]|] eqn:Hb; [| done].
      apply broadcast_shrinks in Hb; [| intros; by eapply leave_shrinks].
      assert (Hkeep : ∀ r2, meeting_rooms m2 !! rid = Some r2 → is_Some (ai_participant r2)).
      { intros r2 Hr2. destruct (shrinks_keep_ai _ _ _ _ Hb Hr2) as (r0 & Hr0 & ->).
        simpl in Hr0. rewrite lookup_insert_eq in Hr0. simplify_eq.
        by apply room_after_join_ai. }
      assert (Hno : match meeting_rooms m2 !! rid with
                    | Some r2 =>
                        bool_decide (ptype = HUMAN)
                        && bool_decide (length (get_human_participants r2) = 1)
                        && negb (bool_decide (is_Some (ai_participant r2)))
                    | None => false
                    end = false).
      { destruct (meeting_rooms m2 !! rid) as [r2|] eqn:Hr2; [| done].
        rewrite (bool_decide_eq_true_2 _ (Hkeep r2 eq_refl)). simpl.
        by rewrite andb_false_r. }
      rewrite Hno in Hj. simplify_eq. split; [done |].
      intros _ _ _ _ _ _. by apply shrinks_le in Hb as (_ & _ & Ht).
    + split; [| intros; simplify_eq].
      rewrite join_prepares in Hj.
      assert (Hr0 : meeting_rooms (create_meeting_room now rid0 10 m).2 !! rid = Some r).
      { unfold create_meeting_room. destruct (meeting_rooms m !! rid0); simpl; [done |].
        by rewrite lookup_insert_ne. }
      eapply join_registered_decompose in Hj; [| apply create_lookup].
      destruct Hj as [(_ & -> & _) | (_ & _ & m2 & ts & Hsh & ->)].
      * intros r' Hr'. by simplify_eq.
      * intros r' Hr'. simpl in Hr'.
        destruct (shrinks_keep_ai _ _ _ _ Hsh Hr') as (r1 & Hr1 & ->).
        simpl in Hr1. rewrite lookup_insert_ne in Hr1 by done. by simplify_eq.
  - destruct (leave_meeting_room _ _ _ _ _) as [[[b m1] ev]|] eqn:Hl;
      simpl in Hop; simplify_eq.
    split; [| done]. intros r' Hr'.
    destruct (shrinks_keep_ai _ _ _ _ (leave_shrinks _ _ _ _ _ _ _ _ Hl) Hr')
      as (r1 & Hr1 & ->).
    by simplify_eq.
  - destruct (handle_voice_activity _ _ _ _ _ _) as [[m1 ev]|] eqn:Hv;
      simpl in Hop; simplify_eq.
    split; [| done]. intros r' Hr'.
    apply voice_decompose in Hv as [(-> & _) | (rid1 & room & Hmap & Hroom & Hsh)];
      [by simplify_eq |].
    destruct (shrinks_keep_ai _ _ _ _ Hsh Hr') as (r1 & Hr1 & ->).
    unfold voiced in Hr1. simpl in Hr1.
    destruct (decide (rid = rid1)) as [->|Hne].
    + rewrite lookup_insert_eq in Hr1. simplify_eq. by rewrite set_voice_activity_ai.
    + rewrite lookup_insert_ne in Hr1 by done. by simplify_eq.
Qed.

Lemma agent_mark_is_never_cleared_witness :
  participants room_agent_left !! "ai-assistant" = None
  ∧ ∃ m', apply_op all_alive manager_agent_left
            (Join 3%Z "R1" "U2" (Connection 2) HUMAN false) = Some m'
          ∧ ai_auto_join_tasks m' ⊆ ai_auto_join_tasks manager_agent_left.
Proof.
  split; [vm_compute; reflexivity |].
  destruct (apply_op_returns all_alive manager_agent_left
              (Join 3%Z "R1" "U2" (Connection 2) HUMAN false)) as [m' Hop].
  exists m'. split; [exact Hop |].
  refine (proj2 (agent_mark_is_never_cleared all_alive manager_agent_left _ m' "R1"
                   room_agent_left Hop _ _) 3%Z "U2" (Connection 2) HUMAN false eq_refl).
  - vm_compute. reflexivity.
  - vm_compute. eauto.
Defined.

(** X21. In every state the manager reaches from its initial state, whatever
    the transports do, each participant is stored in its room under its own
    user id: the key of the participant map and the [user_id] of the stored
    participant never differ. *)
Theorem participants_stored_under_own_id alive ops m :
  Forall op_ok ops → run alive ops new_manager = Some m → keys_are_ids m.
Proof.
  intros Hok Hrun.
  eapply keys_are_ids_run; [exact Hok | exact Hrun | apply new_manager_consistent].
Qed.

Lemma participants_stored_under_own_id_witness :
  Forall op_ok ops_fill_R1 ∧ keys_are_ids manager_R1_full.
Proof.
  assert (H : Forall op_ok ops_fill_R1) by (repeat constructor; simpl; lia).
  split; [exact H |].
  apply (participants_stored_under_own_id all_alive ops_fill_R1 manager_R1_full H).
  vm_compute. reflexivity.
Defined.

(** X22. An initialized conversation always has a first question: the
    question service never gives an empty list, and what comes from the
    generation service has at most seven questions. [start_conversation]
    therefore never falls back to its default greeting: it opens with the
    greeting that names the company of the lead (or "your business") and
    ends in the first question, records it as the only entry of the
    history, and leaves the flow [AI_SPEAKING]. *)
Theorem initialized_conversation_opens_with_first_question
    now0 mid rid ld set_questions model_reply t0 :
  let f0 := initialize ld set_questions model_reply (new_ConversationFlow now0 mid rid) in
  ∃ q0 qs f1,
    questions f0 = q0 :: qs
    ∧ (set_questions = [] → (length (questions f0) ≤ 7)%nat)
    ∧ (set_questions ≠ [] → questions f0 = set_questions)
    ∧ start_conversation t0 f0
      = Returned (opening_message ld q0) f1
          [DbConversationEvent mid
             {| speaker := "ai"; message := opening_message ld q0;
                timestamp := t0; speaker_id := None |}]
    ∧ state f1 = AI_SPEAKING
    ∧ current_question_index f1 = 0%nat
    ∧ conversation_history f1
      = [ {| speaker := "ai"; message := opening_message ld q0;
             timestamp := t0; speaker_id := None |} ].
Proof.
  intros f0. subst f0. unfold initialize, start_conversation.
  cbn [questions set_lead_and_questions].
  assert (Hlen : set_questions = [] →
            (length (generate_questions_for_lead set_questions model_reply) ≤ 7)%nat).
  { intros ->. simpl. destruct model_reply as [[|q qs]|]; simpl; try lia.
    rewrite length_take. lia. }
  assert (Hset : set_questions ≠ [] →
            generate_questions_for_lead set_questions model_reply = set_questions).
  { by destruct set_questions. }
  destruct (generate_questions_for_lead set_questions model_reply) as [|q0 qs] eqn:Hq.
  { by apply generate_questions_nonempty in Hq. }
  cbn. eexists q0, qs, _. repeat split; try done.
Qed.
